(** * Ghana PAYE calculator: the tax engine of [services/taxService.ts]

  A shallow embedding of [calculateTax], [fetchLatestTaxRates] and the
  period normalisation of [App.tsx].  JavaScript numbers are kept abstract
  behind a small interface of the operations the code applies to them; the
  interface is instantiated with exact rationals ([Q]), over which the
  algebraic properties are proved, and with binary64 floats ([PrimFloat]),
  over which the concrete scenario is evaluated bit for bit. *)

From Stdlib Require Import String List Bool Arith Lia.
From Stdlib Require Import ZArith QArith Qminmax Lqa.
From Stdlib Require PrimFloat Uint63.
Import ListNotations.

Set Implicit Arguments.
Set Warnings "-inexact-float".

(** ** The arithmetic the code uses on [number] *)

Declare Scope js_scope.
Delimit Scope js_scope with js.

Class JsNumber : Type := {
num : Type;
of_Z : Z -> num;                 (* integer literals *)
of_decimal : Z -> positive -> num; (* the literal n/d, d a power of ten *)
add : num -> num -> num;
sub : num -> num -> num;
mul : num -> num -> num;
div : num -> num -> num;
leb : num -> num -> bool;        (* [<=], false on NaN *)
ltb : num -> num -> bool;        (* [<],  false on NaN *)
Math_min : num -> num -> num
}.

Infix "+" := add : js_scope.
Infix "-" := sub : js_scope.
Infix "*" := mul : js_scope.
Infix "/" := div : js_scope.
Infix "<=?" := leb : js_scope.
Infix "<?" := ltb : js_scope.

(** Exact arithmetic: every operation is the rational one.  This is the
    arithmetic of the algorithm on paper, not that of the running code: it
    has no rounding, no overflow, no NaN and no infinity.  A theorem stated
    at this instance says so, and what the code does on doubles is stated at
    [Binary64.Number] or for every [JsNumber]. *)
#[export] Instance ExactNumber : JsNumber := {|
num := Q;
of_Z := inject_Z;
of_decimal := Qmake;
add := Qplus;
sub := Qminus;
mul := Qmult;
div := Qdiv;
leb := Qle_bool;
ltb := fun a b => negb (Qle_bool b a);
Math_min := fun a b => if Qle_bool a b then a else b
|}.

(** IEEE 754 binary64, the representation of a JavaScript [number].  A decimal
    literal denotes the double nearest to it, which is what the correctly
    rounded quotient of its numerator and denominator is. *)
Module Binary64.

Definition is_neg_zero (x : PrimFloat.float) : bool :=
  match PrimFloat.classify x with FloatClass.NZero => true | _ => false end.

(** [Math.min]: NaN if either argument is NaN, and [-0] below [+0]. *)
Definition min (a b : PrimFloat.float) : PrimFloat.float :=
  if PrimFloat.is_nan a then a
  else if PrimFloat.is_nan b then b
  else if PrimFloat.ltb a b then a
  else if PrimFloat.ltb b a then b
  else if is_neg_zero a then a else b.

Definition of_int (z : Z) : PrimFloat.float :=
  match z with
  | Z0 => PrimFloat.zero
  | Zpos _ => PrimFloat.of_uint63 (Uint63.of_Z z)
  | Zneg p => PrimFloat.opp (PrimFloat.of_uint63 (Uint63.of_Z (Zpos p)))
  end.

#[export] Instance Number : JsNumber := {|
  num := PrimFloat.float;
  of_Z := of_int;
  of_decimal := fun n d => PrimFloat.div (of_int n) (of_int (Zpos d));
  add := PrimFloat.add;
  sub := PrimFloat.sub;
  mul := PrimFloat.mul;
  div := PrimFloat.div;
  leb := PrimFloat.leb;
  ltb := PrimFloat.ltb;
  Math_min := min
|}.
End Binary64.

(** ** Data model *)

Section Engine.
Context {N : JsNumber}.
Local Open Scope js_scope.

(** [limit: number | null], [null] meaning "and above". *)
Record TaxBracket : Type := {
  limit : option num;
  rate : num
}.

Record TaxRates : Type := {
  ssnitRate : num;
  brackets : list TaxBracket;
  year : string;
  source : option string
}.

Definition DEFAULT_GHANA_TAX_RATES : TaxRates := {|
  ssnitRate := of_decimal 55 1000;
  year := "2024/2025";
  brackets := [
    {| limit := Some (of_Z 490);   rate := of_Z 0 |};
    {| limit := Some (of_Z 110);   rate := of_decimal 5 100 |};
    {| limit := Some (of_Z 130);   rate := of_decimal 10 100 |};
    {| limit := Some (of_Z 3160);  rate := of_decimal 175 1000 |};
    {| limit := Some (of_Z 16110); rate := of_decimal 25 100 |};
    {| limit := Some (of_Z 45000); rate := of_decimal 30 100 |};
    {| limit := None;              rate := of_decimal 35 100 |}
  ];
  source := None
|}.

(** The label of a breakdown line is the template literal
    [limit === null ? `Above previous` : `Next ${limit}`]; the interpolated
    number is kept as a number. *)
Inductive BracketLabel : Type :=
| Above_previous
| Next (limit : num).

Record BreakdownEntry : Type := {
  bracket : BracketLabel;
  amount : num;
  tax : num
}.

Record TaxResult : Type := {
  grossIncome : num;
  ssnit : num;
  taxableIncome : num;
  totalTax : num;
  netIncome : num;
  breakdown : list BreakdownEntry;
  ratesUsed : TaxRates
}.

(** ** [calculateTax] *)

(** The mutable locals of the [for] loop. *)
Record LoopState : Type := {
  loop_i : nat;
  loop_remainingTaxable : num;
  loop_totalTax : num;
  loop_breakdown : list BreakdownEntry
}.

Definition bracket_label (limit : option num) : BracketLabel :=
  match limit with
  | None => Above_previous
  | Some l => Next l
  end.

(** One pass through the loop: [None] when the loop is left, either because
    [i < rates.brackets.length] fails or through [break]. *)
Definition loop_iteration (rates : TaxRates) (s : LoopState) : option LoopState :=
  match nth_error (brackets rates) (loop_i s) with
  | None => None
  | Some b =>
      let rate := rate b in
      let limit := limit b in
      if loop_remainingTaxable s <=? of_Z 0 then None
      else
        let amountInThisBracket :=
          match limit with
          | None => loop_remainingTaxable s
          | Some l => Math_min (loop_remainingTaxable s) l
          end in
        let taxForThisBracket := amountInThisBracket * rate in
        Some {| loop_i := S (loop_i s);
                loop_remainingTaxable := loop_remainingTaxable s - amountInThisBracket;
                loop_totalTax := loop_totalTax s + taxForThisBracket;
                loop_breakdown :=
                  loop_breakdown s ++
                  [ {| bracket := bracket_label limit;
                       amount := amountInThisBracket;
                       tax := taxForThisBracket |} ] |}
  end.

Fixpoint for_loop (fuel : nat) (rates : TaxRates) (s : LoopState) : LoopState :=
  match fuel with
  | O => s
  | S fuel' =>
      match loop_iteration rates s with
      | None => s
      | Some s' => for_loop fuel' rates s'
      end
  end.

(** The whole [for] statement, from the initialisation of the locals; the
    counter can advance at most [rates.brackets.length] times. *)
Definition bracket_loop (taxableIncome : num) (rates : TaxRates) : LoopState :=
  for_loop (List.length (brackets rates)) rates
    {| loop_i := 0%nat;
       loop_remainingTaxable := taxableIncome;
       loop_totalTax := of_Z 0;
       loop_breakdown := [] |}.

Definition calculateTax (grossIncome : num) (rates : TaxRates) : TaxResult :=
  let ssnit := grossIncome * ssnitRate rates in
  let taxableIncome := grossIncome - ssnit in
  let final := bracket_loop taxableIncome rates in
  let netIncome := taxableIncome - loop_totalTax final in
  {| grossIncome := grossIncome;
     ssnit := ssnit;
     taxableIncome := taxableIncome;
     totalTax := loop_totalTax final;
     netIncome := netIncome;
     breakdown := loop_breakdown final;
     ratesUsed := rates |}.

End Engine.

Arguments Above_previous {N}.

(** ** The reference algorithm of the specification (Steps 1 to 4) *)

Module Reference.
Section Steps.
Context {N : JsNumber}.
Local Open Scope js_scope.

Record Entry : Type := {
  label : BracketLabel;
  taxedAmount : num;
  taxForBracket : num
}.

Record Result : Type := {
  mandatoryDeduction : num;
  taxableIncome : num;
  totalTax : num;
  netIncome : num;
  breakdown : list Entry
}.

(** Step 3: the brackets are consumed in table order. *)
Fixpoint step3 (bs : list TaxBracket) (remaining totalTax : num)
  (breakdown : list Entry) : num * list Entry :=
  match bs with
  | [] => (totalTax, breakdown)
  | b :: rest =>
      if remaining <=? of_Z 0 then (totalTax, breakdown)
      else
        let amountInBracket :=
          match limit b with
          | None => remaining
          | Some l => Math_min remaining l
          end in
        let bracketTax := amountInBracket * rate b in
        step3 rest (remaining - amountInBracket) (totalTax + bracketTax)
          (breakdown ++
           [ {| label := bracket_label (limit b);
                taxedAmount := amountInBracket;
                taxForBracket := bracketTax |} ])
  end.

Definition compute (grossIncome : num) (rates : TaxRates) : Result :=
  let mandatoryDeduction := grossIncome * ssnitRate rates in
  let taxableIncome := grossIncome - mandatoryDeduction in
  let '(totalTax, breakdown) :=
    step3 (brackets rates) taxableIncome (of_Z 0) [] in
  {| mandatoryDeduction := mandatoryDeduction;
     taxableIncome := taxableIncome;
     totalTax := totalTax;
     netIncome := taxableIncome - totalTax;
     breakdown := breakdown |}.

Definition to_entry (e : Entry) : BreakdownEntry :=
  {| bracket := label e; amount := taxedAmount e; tax := taxForBracket e |}.

End Steps.
End Reference.

(** ** [fetchLatestTaxRates] *)

Inductive JsError : Type :=
| TypeError
| SyntaxError
| ServiceError (message : string).

(** The outcome of evaluating an expression that may throw. *)
Inductive Completion (A : Type) : Type :=
| Normal (a : A)
| Throw (e : JsError).

Arguments Normal {A} a.
Arguments Throw {A} e.

Definition bind {A B : Type} (c : Completion A) (k : A -> Completion B) :
  Completion B :=
  match c with
  | Normal a => k a
  | Throw e => Throw e
  end.

Notation "x <- c ;; k" := (bind c (fun x => k))
  (at level 61, c at next level, right associativity).

Section Provider.
Context {N : JsNumber}.
Local Open Scope js_scope.
Local Open Scope string_scope.

(** Values as they exist at run time, where the annotation [TaxRates] is
    gone: what [JSON.parse] returns and what the promise resolves to. *)
#[warnings="-register-all"] Inductive JsValue : Type :=
| JsUndefined
| JsNull
| JsBool (b : bool)
| JsNum (x : num)
| JsString (s : string)
| JsArray (items : list JsValue)
| JsObject (props : list (string * JsValue)).

Fixpoint lookup (k : string) (props : list (string * JsValue)) : JsValue :=
  match props with
  | [] => JsUndefined
  | (k', v) :: rest => if String.eqb k k' then v else lookup k rest
  end.

(** [v.k] for the property names the code reads ([brackets], [ssnitRate],
    [year], [source]): a [TypeError] on [null] and [undefined], [undefined]
    on a primitive or an array. *)
Definition get (v : JsValue) (k : string) : Completion JsValue :=
  match v with
  | JsUndefined | JsNull => Throw TypeError
  | JsObject props => Normal (lookup k props)
  | _ => Normal JsUndefined
  end.

Definition truthy (v : JsValue) : bool :=
  match v with
  | JsUndefined | JsNull => false
  | JsBool b => b
  | JsNum x => (x <? of_Z 0)%js || (of_Z 0 <? x)%js
  | JsString s => negb (String.eqb s "")
  | JsArray _ | JsObject _ => true
  end.

(** [a || b] *)
Definition js_or (a b : JsValue) : JsValue := if truthy a then a else b.

Definition Array_isArray (v : JsValue) : bool :=
  match v with
  | JsArray _ => true
  | _ => false
  end.

Definition bracket_to_js (b : TaxBracket) : JsValue :=
  JsObject [ ("limit", match limit b with Some l => JsNum l | None => JsNull end);
             ("rate", JsNum (rate b)) ].

(** A typed table as the object it is at run time; the optional [source]
    is a property only when it is set. *)
Definition rates_to_js (t : TaxRates) : JsValue :=
  JsObject
    ([ ("ssnitRate", JsNum (ssnitRate t));
       ("year", JsString (year t));
       ("brackets", JsArray (map bracket_to_js (brackets t))) ] ++
     match source t with
     | Some s => [ ("source", JsString s) ]
     | None => []
     end).

Record GenerateContentParameters : Type := {
  model : string;
  contents : string;
  tools_googleSearch : bool;
  responseMimeType : string
}.

(** [response.text] is a string or [undefined]. *)
Record GenerateContentResponse : Type := {
  text : option string
}.

Inductive Event : Type :=
| GenerateContent (apiKey : string) (request : GenerateContentParameters)
| ConsoleError (message : string) (error : JsError).

Inductive Settlement : Type :=
| Resolved (value : JsValue)
| Rejected (reason : JsError).

Record Run : Type := {
  settled : Settlement;
  events : list Event
}.

(** The world outside the function: the rate-discovery service behind the
    client built from the key, and the JSON parser of the platform. *)
Variable generateContent :
  string -> GenerateContentParameters -> Completion GenerateContentResponse.
Variable JSON_parse : string -> Completion JsValue.

Definition request : GenerateContentParameters := {|
  model := "gemini-3-flash-preview";
  contents := "What are the current monthly income tax (PAYE) brackets and SSNIT rates for employees in Ghana for the year 2025? Provide the answer in a structured JSON format with 'ssnitRate' (as a decimal), 'year', and 'brackets' (an array of objects with 'limit' and 'rate'). If a bracket is 'above X', set limit to null.";
  tools_googleSearch := true;
  responseMimeType := "application/json"
|}.

(** [response.text || "{}"] *)
Definition text_or_empty_object (response : GenerateContentResponse) : string :=
  match text response with
  | Some t => if String.eqb t "" then "{}" else t
  | None => "{}"
  end.

(** The body of the [try] block: [Some] the table it returns, [None] when
    control falls out of the block. *)
Definition try_block (apiKey : string) : Completion (option JsValue) :=
  response <- generateContent apiKey request ;;
  data <- JSON_parse (text_or_empty_object response) ;;
  brackets1 <- get data "brackets" ;;
  isArray <- (if truthy brackets1
              then brackets2 <- get data "brackets" ;;
                   Normal (Array_isArray brackets2)
              else Normal false) ;;
  if isArray : bool then
    ssnitRate_ <- get data "ssnitRate" ;;
    year_ <- get data "year" ;;
    brackets_ <- get data "brackets" ;;
    Normal (Some (JsObject
      [ ("ssnitRate", js_or ssnitRate_ (JsNum (of_decimal 55 1000)));
        ("year", js_or year_ (JsString "2025"));
        ("brackets", brackets_);
        ("source", JsString "Gemini Live Search") ]))
  else Normal None.

(** [process.env.GEMINI_API_KEY] is a string or [undefined]; [!apiKey] holds
    for [undefined] and for the empty string.  The client is built from the
    key before the [try]; with a non-empty key, building it does not throw.
    The promise settles once: it is resolved by a [return], and would be
    rejected by a throw that leaves the function. *)
Definition fetchLatestTaxRates (GEMINI_API_KEY : option string) : Run :=
  let apiKey := GEMINI_API_KEY in
  match apiKey with
  | None => {| settled := Resolved (rates_to_js DEFAULT_GHANA_TAX_RATES);
               events := [] |}
  | Some key =>
      if String.eqb key ""
      then {| settled := Resolved (rates_to_js DEFAULT_GHANA_TAX_RATES);
              events := [] |}
      else
        match try_block key with
        | Normal (Some table) =>
            {| settled := Resolved table;
               events := [GenerateContent key request] |}
        | Normal None =>
            {| settled := Resolved (rates_to_js DEFAULT_GHANA_TAX_RATES);
               events := [GenerateContent key request] |}
        | Throw error =>
            {| settled := Resolved (rates_to_js DEFAULT_GHANA_TAX_RATES);
               events := [GenerateContent key request;
                          ConsoleError "Error fetching live tax rates:" error] |}
        end
  end.

End Provider.

(** ** Period normalisation in [App] *)

Section App.
Context {N : JsNumber}.
Local Open Scope js_scope.

(** [parseFloat] of the platform: [None] stands for [NaN]. *)
Variable parseFloat : string -> option num.

(** [x || 0] on a number: [NaN] and zero are falsy. *)
Definition or_zero (x : option num) : num :=
  match x with
  | Some v => if (v <? of_Z 0) || (of_Z 0 <? v) then v else of_Z 0
  | None => of_Z 0
  end.

(** The body of the [useMemo] callback that computes [results]. *)
Definition results (income : string) (isAnnual : bool) (rates : TaxRates) :
  TaxResult :=
  let numIncome := or_zero (parseFloat income) in
  let monthlyIncome := if isAnnual then numIncome / of_Z 12 else numIncome in
  calculateTax monthlyIncome rates.

(** The parsed income of the specification: unparseable text counts as 0. *)
Definition parsed_income (income : string) : num :=
  match parseFloat income with
  | Some v => v
  | None => of_Z 0
  end.

End App.

(** * Vocabulary of the properties *)

Abbreviation Bracket := (@TaxBracket ExactNumber).
Abbreviation Rates := (@TaxRates ExactNumber).

Section ExactVocabulary.
Local Open Scope Q_scope.

Definition in_unit (r : Q) : Prop := 0 <= r /\ r <= 1.

Definition last_unbounded (bs : list Bracket) : Prop :=
  match rev bs with
  | b :: _ => limit b = None
  | [] => False
  end.

(** A valid table: brackets non-empty with the last one unbounded, and the
    contribution rate and every bracket rate a fraction. *)
Definition valid_RateTable (t : Rates) : Prop :=
  brackets t <> [] /\
  last_unbounded (brackets t) /\
  in_unit (ssnitRate t) /\
  Forall (fun b => in_unit (rate b)) (brackets t).

(** Every bounded bracket has a non-negative width. *)
Definition nonneg_limits (bs : list Bracket) : Prop :=
  Forall (fun b => match limit b with Some l => 0 <= l | None => True end) bs.

(** The amount a bracket takes out of [remaining]. *)
Definition amount_in (remaining : Q) (b : Bracket) : Q :=
  match limit b with
  | None => remaining
  | Some l => if Qle_bool remaining l then remaining else l
  end.

(** *** Tables without an unbounded bracket *)

Definition all_bounded (bs : list Bracket) : Prop :=
  Forall (fun b => limit b <> None) bs.

Definition width (b : Bracket) : Q :=
  match limit b with Some l => l | None => 0 end.

Definition total_width (bs : list Bracket) : Q :=
  fold_right (fun b acc => width b + acc) 0 bs.

Definition full_tax (bs : list Bracket) : Q :=
  fold_right (fun b acc => width b * rate b + acc) 0 bs.

(** The breakdown line of a bracket that is filled to its whole width. *)
Definition full_line (b : Bracket) : BreakdownEntry :=
  {| bracket := bracket_label (limit b);
     amount := width b;
     tax := width b * rate b |}.

(** A table that is valid in the sense of [valid_RateTable] but whose first
    bracket has a negative width. *)
Definition negative_width_table : Rates := {|
  ssnitRate := 0;
  year := "2025";
  brackets := [ {| limit := Some (-100); rate := 0 |};
                {| limit := None; rate := 1 |} ];
  source := None
|}.

Definition two_bracket_table : Rates := {|
  ssnitRate := 0.055;
  year := "2025";
  brackets := [ {| limit := Some 490; rate := 0 |};
                {| limit := Some 110; rate := 0.05 |} ];
  source := None
|}.

(** The table of the specification's bracket-exhaustion example. *)
Definition three_bracket_table : Rates := {|
  ssnitRate := 0;
  year := "2025";
  brackets := [ {| limit := Some 100; rate := 0 |};
                {| limit := Some 50; rate := 0.1 |};
                {| limit := None; rate := 0.2 |} ];
  source := None
|}.

End ExactVocabulary.

Module Scenario.
Import PrimFloat.
Local Open Scope Q_scope.

(** The five lines of the scenario: taxed amount and tax of each. *)
Definition scenario_lines : list (Q * Q) :=
  [ (490, 0); (110, 5.5); (130, 13); (3160, 553); (835, 208.75) ].

Definition line (l a t : float) : @BreakdownEntry Binary64.Number :=
  @Build_BreakdownEntry Binary64.Number (@Next Binary64.Number l) a t.

Definition binary64_result : @TaxResult Binary64.Number :=
  @Build_TaxResult Binary64.Number 5000%float 275%float 4725%float
    780.25%float 3944.75%float
    [ line 490 490 0;
      line 110 110 5.5;
      line 130 130 13;
      line 3160 3160 553;
      line 16110 835 208.75 ]%float
    DEFAULT_GHANA_TAX_RATES.

(** The rates of the default table as the literals of the source. *)
Definition default_rate_literals : list float :=
  [ 0; 0.05; 0.10; 0.175; 0.25; 0.30; 0.35 ]%float.

End Scenario.

(** What the specification calls a response lacking a [brackets] array. *)
Definition has_brackets_array {N : JsNumber} (data : JsValue) : bool :=
  match data with
  | JsObject props => Array_isArray (lookup "brackets" props)
  | _ => false
  end.

(** The service outcomes of the specification that must end in the fallback:
    the client throws, the body does not parse, or the parsed body has no
    [brackets] array. *)
Definition service_fails {N : JsNumber}
  (generateContent :
     string -> GenerateContentParameters -> Completion GenerateContentResponse)
  (JSON_parse : string -> Completion JsValue) (key : string) : Prop :=
  match generateContent key request with
  | Throw _ => True
  | Normal response =>
      match JSON_parse (text_or_empty_object response) with
      | Throw _ => True
      | Normal data => has_brackets_array data = false
      end
  end.

(** Worlds used to exercise the provider. *)
Definition offline_service
  (_ : string) (_ : GenerateContentParameters) :
  Completion GenerateContentResponse :=
  Throw (ServiceError "fetch failed").

Definition no_parser {N : JsNumber} (_ : string) : Completion JsValue :=
  Throw SyntaxError.

Definition replying (body : option string)
  (_ : string) (_ : GenerateContentParameters) :
  Completion GenerateContentResponse :=
  Normal {| text := body |}.

Definition double_quote : string := String (Ascii.ascii_of_nat 34) EmptyString.

(** The body [{"brackets":[]}]. *)
Definition empty_brackets_body : string :=
  ("{" ++ double_quote ++ "brackets" ++ double_quote ++ ":[]}")%string.

(** [JSON.parse] restricted to a handful of bodies; it throws on the rest. *)
Definition sample_parser {N : JsNumber} (body : string) : Completion JsValue :=
  if String.eqb body "{}" then Normal (JsObject [])
  else if String.eqb body "null" then Normal JsNull
  else if String.eqb body "[]" then Normal (JsArray [])
  else if String.eqb body empty_brackets_body
       then Normal (JsObject [ ("brackets"%string, JsArray []) ])
  else Throw SyntaxError.

(** ** The rest of [App]: state, refresh handler and derived figures *)

Module AppComponent.
Section Component.
Context {N : JsNumber}.
Local Open Scope js_scope.

(** The five [useState] cells.  [rates] holds whatever the provider resolved
    to, hence a run-time value. *)
Record State : Type := {
  income : string;
  isAnnual : bool;
  rates : JsValue;
  isLoadingRates : bool;
  showBreakdown : bool
}.

Definition initial : State := {|
  income := "";
  isAnnual := false;
  rates := rates_to_js DEFAULT_GHANA_TAX_RATES;
  isLoadingRates := false;
  showBreakdown := false
|}.

Definition setRates (latest : JsValue) (s : State) : State :=
  {| income := income s; isAnnual := isAnnual s; rates := latest;
     isLoadingRates := isLoadingRates s; showBreakdown := showBreakdown s |}.

Definition setIsLoadingRates (b : bool) (s : State) : State :=
  {| income := income s; isAnnual := isAnnual s; rates := rates s;
     isLoadingRates := b; showBreakdown := showBreakdown s |}.

Variable generateContent :
  string -> GenerateContentParameters -> Completion GenerateContentResponse.
Variable JSON_parse : string -> Completion JsValue.

(** What the handler finds at its [await]: a promise that has settled, or
    one that is still pending.  The source puts no timeout on the request,
    so a promise may stay pending for good. *)
Inductive Awaited : Type :=
| Pending
| Settled (outcome : Settlement).

(** The body shared by [handleRefreshRates] and [loadRates], as far as the
    awaited promise lets it run: suspended at the [await] while the promise
    is pending, run to its end once it is resolved.  A rejected [await]
    throws, and the two statements after it are not executed. *)
Definition refresh_body (awaited : Awaited) (s : State) : State :=
  let s1 := setIsLoadingRates true s in
  match awaited with
  | Pending => s1
  | Settled (Resolved latest) => setIsLoadingRates false (setRates latest s1)
  | Settled (Rejected _) => s1
  end.

(** [handleRefreshRates] once the promise of the provider has settled.  That
    the promise settles is a premise of this definition, not a consequence:
    the state while it is pending is [refresh_body Pending]. *)
Definition handleRefreshRates (GEMINI_API_KEY : option string) (s : State) :
  State :=
  refresh_body
    (Settled (settled (fetchLatestTaxRates generateContent JSON_parse
                         GEMINI_API_KEY)))
    s.

(** [rates.source && ...]: whether the live-data badge is rendered. *)
Definition shows_live_badge (s : State) : Completion bool :=
  source_ <- get (rates s) "source" ;;
  Normal (truthy source_).

(** [results.netIncome * 12] and [results.totalTax * 12] of the annual
    summary. *)
Definition annualTakeHome (results : TaxResult) : num :=
  netIncome results * of_Z 12.

Definition annualTotalTax (results : TaxResult) : num :=
  totalTax results * of_Z 12.

(** One row of the breakdown list, before formatting: [item.bracket],
    [rates.brackets[idx].rate * 100], [item.amount] and [item.tax]. *)
Record Row : Type := {
  row_bracket : BracketLabel;
  row_percent : num;
  row_amount : num;
  row_tax : num
}.

(** [results.breakdown.map((item, idx) => ...)] from index [idx] on; reading
    [.rate] of a bracket that is not there throws. *)
Fixpoint rows_from (idx : nat) (items : list BreakdownEntry)
  (table : TaxRates) : Completion (list Row) :=
  match items with
  | [] => Normal []
  | item :: rest =>
      match nth_error (brackets table) idx with
      | None => Throw TypeError
      | Some b =>
          rows <- rows_from (S idx) rest table ;;
          Normal ({| row_bracket := bracket item;
                     row_percent := rate b * of_Z 100;
                     row_amount := amount item;
                     row_tax := tax item |} :: rows)
      end
  end.

Definition breakdown_rows (results : TaxResult) (table : TaxRates) :
  Completion (list Row) :=
  rows_from 0 (breakdown results) table.

End Component.
End AppComponent.

(** ** Further vocabulary *)

Section LineVocabulary.
Context {N : JsNumber}.
Local Open Scope js_scope.

(** The breakdown as a function of the brackets and of what is left to tax,
    without the accumulators of the loop. *)
Fixpoint bracket_lines (bs : list TaxBracket) (remaining : num) :
  list BreakdownEntry :=
  match bs with
  | [] => []
  | b :: rest =>
      if remaining <=? of_Z 0 then []
      else
        let a := match limit b with
                 | None => remaining
                 | Some l => Math_min remaining l
                 end in
        {| bracket := bracket_label (limit b); amount := a; tax := a * rate b |}
        :: bracket_lines rest (remaining - a)
  end.

(** A breakdown line belongs to a bracket: it carries its label and its tax
    is its amount at the rate of the bracket. *)
Definition line_of (e : BreakdownEntry) (b : TaxBracket) : Prop :=
  bracket e = bracket_label (limit b) /\ tax e = amount e * rate b.

End LineVocabulary.

Section ProviderVocabulary.
Context {N : JsNumber}.
Local Open Scope string_scope.

(** The table the [try] block returns for a parsed body with properties
    [props] whose [brackets] is the array [items]. *)
Definition live_table (props : list (string * JsValue))
  (items : list JsValue) : JsValue :=
  JsObject
    [ ("ssnitRate", js_or (lookup "ssnitRate" props) (JsNum (of_decimal 55 1000)));
      ("year", js_or (lookup "year" props) (JsString "2025"));
      ("brackets", JsArray items);
      ("source", JsString "Gemini Live Search") ].

End ProviderVocabulary.

(** A parser for a body that reports an SSNIT rate of zero and no bracket:
    [{"ssnitRate":0,"brackets":[]}]. *)
Definition zero_rate_parser (_ : string) : Completion (@JsValue ExactNumber) :=
  Normal (JsObject [ ("ssnitRate"%string, @JsNum ExactNumber 0%Q);
                     ("brackets"%string, JsArray []) ]).

Section ExactVocabulary2.
Local Open Scope Q_scope.

Definition sum_amounts (l : list (@BreakdownEntry ExactNumber)) : Q :=
  fold_right (fun e acc => amount e + acc) 0 l.

(** A line stays within its bracket: a non-negative amount no larger than
    the width, taxed at no more than the amount. *)
Definition line_within (e : @BreakdownEntry ExactNumber) (b : Bracket) : Prop :=
  0 <= amount e /\
  match limit b with Some l => amount e <= l | None => True end /\
  0 <= tax e /\ tax e <= amount e.

End ExactVocabulary2.

(** ** Tables and incomes at the edge of binary64 *)

Section EdgeTables.
Context {N : JsNumber}.


(** 490 at rate 0.6, the rest at rate 0.95; deduction 0.055. *)
Definition steep_table : TaxRates := {|
  ssnitRate := of_decimal 55 1000;
  year := "2025";
  brackets := [ {| limit := Some (of_Z 490); rate := of_decimal 6 10 |};
                {| limit := None; rate := of_decimal 95 100 |} ];
  source := None
|}.

(** Three bounded brackets of widths 1, 2^53 and 0.25; no deduction. *)
Definition wide_bounded_table : TaxRates := {|
  ssnitRate := of_Z 0;
  year := "2025";
  brackets := [ {| limit := Some (of_Z 1); rate := of_Z 0 |};
                {| limit := Some (of_Z 9007199254740992); rate := of_decimal 5 10 |};
                {| limit := Some (of_decimal 25 100); rate := of_decimal 5 10 |} ];
  source := None
|}.

(** Two brackets of width 0.03 at rate 1, then an unbounded bracket at rate
    1; deduction 0.055. *)
Definition thin_brackets_table : TaxRates := {|
  ssnitRate := of_decimal 55 1000;
  year := "2025";
  brackets := [ {| limit := Some (of_decimal 3 100); rate := of_Z 1 |};
                {| limit := Some (of_decimal 3 100); rate := of_Z 1 |};
                {| limit := None; rate := of_Z 1 |} ];
  source := None
|}.

(** An unbounded bracket followed by a bounded one; no deduction. *)
Definition unbounded_first_table : TaxRates := {|
  ssnitRate := of_Z 0;
  year := "2025";
  brackets := [ {| limit := None; rate := of_decimal 2 10 |};
                {| limit := Some (of_Z 100); rate := of_decimal 9 10 |} ];
  source := None
|}.

(** 10 at rate 0.055, the rest at rate 0.1; no deduction. *)
Definition ten_wide_table : TaxRates := {|
  ssnitRate := of_Z 0;
  year := "2025";
  brackets := [ {| limit := Some (of_Z 10); rate := of_decimal 55 1000 |};
                {| limit := None; rate := of_decimal 1 10 |} ];
  source := None
|}.

End EdgeTables.

Module Binary64Inputs.

(** The doubles 5000.0000000000009 and 5000.0000000000018, which are
    adjacent. *)
Definition just_above_5000 : PrimFloat.float :=
  @of_decimal Binary64.Number 5000000000000001 1000000000000.

Definition next_above_5000 : PrimFloat.float :=
  @of_decimal Binary64.Number 5000000000000002 1000000000000.

(** 2^53 + 2. *)
Definition beyond_2_53 : PrimFloat.float :=
  @of_Z Binary64.Number 9007199254740994.


End Binary64Inputs.

Module Binary64Literals.
Import PrimFloat.

(** A deduction of 0.7523369999999997 and one unbounded bracket at rate 1. *)
Definition odd_deduction_table : @TaxRates Binary64.Number :=
  @Build_TaxRates Binary64.Number 0.7523369999999997%float
    [ @Build_TaxBracket Binary64.Number None 1%float ] "2025" None.

Definition income_before : float := 1.3291915723937548%float.

Definition income_after : float := next_up income_before.

(** A first bracket of width 2^-53, then an unbounded bracket; no deduction
    and no tax. *)
Definition tiny_first_bracket_table : @TaxRates Binary64.Number :=
  @Build_TaxRates Binary64.Number 0%float
    [ @Build_TaxBracket Binary64.Number (Some 0x1p-53%float) 0%float;
      @Build_TaxBracket Binary64.Number None 0%float ] "2025" None.

(** 1 + 2^-52, the double after 1. *)
Definition just_above_one : float := next_up 1%float.

End Binary64Literals.

(** * Proofs *)

(** Expose the rational operations behind the interface. *)
Ltac exact_ops :=
  change (@num ExactNumber) with Q in *;
  change (@of_Z ExactNumber 0) with 0 in *;
  change (@add ExactNumber) with Qplus in *;
  change (@sub ExactNumber) with Qminus in *;
  change (@mul ExactNumber) with Qmult in *;
  change (@div ExactNumber) with Qdiv in *;
  change (@leb ExactNumber) with Qle_bool in *.

(** ** The loop of the code and the recursion of the reference agree *)

Section LoopFacts.
Context {N : JsNumber}.
Local Open Scope js_scope.

Lemma skipn_nth_error_cons (A : Type) (l : list A) (i : nat) (x : A) :
  nth_error l i = Some x -> skipn i l = x :: skipn (S i) l.
Proof.
  revert i; induction l as [|y l IH]; intros [|i] H; simpl in *;
    try discriminate.
  - now inversion H.
  - now apply IH.
Qed.

Lemma loop_iteration_index (rates : TaxRates) (s s' : LoopState) :
  loop_iteration rates s = Some s' -> loop_i s' = S (loop_i s).
Proof.
  unfold loop_iteration.
  destruct (nth_error (brackets rates) (loop_i s)) as [b|]; [|discriminate].
  destruct (loop_remainingTaxable s <=? of_Z 0); [discriminate|].
  intros H; inversion H; reflexivity.
Qed.

(** The fuel given by [calculateTax] is enough: when [for_loop] returns,
    the loop has really been left. *)
Lemma for_loop_exits (rates : TaxRates) (fuel : nat) (s : LoopState) :
  (List.length (brackets rates) - loop_i s <= fuel)%nat ->
  loop_iteration rates (for_loop fuel rates s) = None.
Proof.
  revert s; induction fuel as [|fuel IH]; intros s Hfuel; simpl.
  - unfold loop_iteration.
    replace (nth_error (brackets rates) (loop_i s)) with (@None TaxBracket);
      [reflexivity|].
    symmetry; apply nth_error_None; lia.
  - destruct (loop_iteration rates s) as [s'|] eqn:Hit; [|exact Hit].
    apply IH. rewrite (loop_iteration_index _ _ Hit). lia.
Qed.

Lemma for_loop_step3 (rates : TaxRates) (fuel : nat) (s : LoopState)
  (bd : list Reference.Entry) :
  fuel = (List.length (brackets rates) - loop_i s)%nat ->
  loop_breakdown s = map Reference.to_entry bd ->
  let s' := for_loop fuel rates s in
  let r := Reference.step3 (skipn (loop_i s) (brackets rates))
             (loop_remainingTaxable s) (loop_totalTax s) bd in
  loop_totalTax s' = fst r /\ loop_breakdown s' = map Reference.to_entry (snd r).
Proof.
  revert s bd; induction fuel as [|fuel IH]; intros s bd Hfuel Hbd; simpl.
  - rewrite skipn_all2 by lia. simpl. auto.
  - unfold loop_iteration.
    destruct (nth_error (brackets rates) (loop_i s)) as [b|] eqn:Hnth.
    2:{ apply nth_error_None in Hnth. lia. }
    rewrite (skipn_nth_error_cons _ _ Hnth). simpl.
    destruct (loop_remainingTaxable s <=? of_Z 0); [auto|].
    match goal with
    | |- context [for_loop fuel rates ?st] =>
        specialize (IH st)
    end.
    simpl in IH. apply IH.
    + lia.
    + rewrite Hbd, map_app. reflexivity.
Qed.

Lemma calculateTax_reference (g : num) (rates : TaxRates) :
  let r := calculateTax g rates in
  let r' := Reference.compute g rates in
  grossIncome r = g /\
  ssnit r = Reference.mandatoryDeduction r' /\
  taxableIncome r = Reference.taxableIncome r' /\
  totalTax r = Reference.totalTax r' /\
  netIncome r = Reference.netIncome r' /\
  breakdown r = map Reference.to_entry (Reference.breakdown r') /\
  ratesUsed r = rates.
Proof.
  unfold calculateTax, bracket_loop, Reference.compute.
  match goal with
  | |- context [for_loop ?f rates ?st] =>
      destruct (@for_loop_step3 rates f st [] (eq_sym (Nat.sub_0_r _)) eq_refl)
        as [Ht Hb]
  end.
  simpl in Ht, Hb.
  destruct (Reference.step3 (brackets rates) _ _ _) as [t b] eqn:E.
  simpl in *. rewrite Ht, Hb. repeat split.
Qed.

(** The counter advances exactly once per line pushed on the breakdown. *)
Lemma for_loop_counts (rates : TaxRates) (fuel : nat) (s : LoopState) :
  (loop_i (for_loop fuel rates s) + List.length (loop_breakdown s) =
   loop_i s + List.length (loop_breakdown (for_loop fuel rates s)))%nat.
Proof.
  revert s; induction fuel as [|fuel IH]; intros s; simpl; [lia|].
  destruct (loop_iteration rates s) as [s'|] eqn:Hit; [|lia].
  specialize (IH s'). rewrite (loop_iteration_index _ _ Hit) in IH.
  assert (Hlen : List.length (loop_breakdown s') =
                 S (List.length (loop_breakdown s))).
  { unfold loop_iteration in Hit.
    destruct (nth_error (brackets rates) (loop_i s)); [|discriminate].
    destruct (loop_remainingTaxable s <=? of_Z 0); [discriminate|].
    inversion Hit; simpl. rewrite length_app. simpl. lia. }
  lia.
Qed.

(** With nothing left to tax the loop is left at once, by [break] or because
    the table is empty, and no local is touched. *)
Lemma for_loop_break (rates : TaxRates) (fuel : nat) (s : LoopState) :
  (loop_remainingTaxable s <=? of_Z 0) = true ->
  for_loop fuel rates s = s.
Proof.
  intros H. destruct fuel as [|fuel]; simpl; [reflexivity|].
  unfold loop_iteration.
  destruct (nth_error (brackets rates) (loop_i s)); [|reflexivity].
  now rewrite H.
Qed.

Lemma bracket_loop_counts (taxable : num) (rates : TaxRates) :
  loop_i (bracket_loop taxable rates) =
  List.length (loop_breakdown (bracket_loop taxable rates)).
Proof.
  unfold bracket_loop.
  match goal with
  | |- context [for_loop ?f ?r ?s] => assert (C := for_loop_counts r f s)
  end.
  simpl in C. rewrite Nat.add_0_r in C. exact C.
Qed.

Lemma bracket_loop_exits (taxable : num) (rates : TaxRates) :
  loop_iteration rates (bracket_loop taxable rates) = None.
Proof. apply for_loop_exits. simpl. lia. Qed.

End LoopFacts.

(** ** Properties over exact arithmetic *)

Section ExactFacts.
Local Open Scope Q_scope.

Lemma step3_nil (rem tot : Q) (bd : list Reference.Entry) :
  Reference.step3 [] rem tot bd = (tot, bd).
Proof. reflexivity. Qed.

Lemma step3_stop (bs : list Bracket) (rem tot : Q) (bd : list Reference.Entry) :
  rem <= 0 -> Reference.step3 bs rem tot bd = (tot, bd).
Proof.
  intros H. destruct bs as [|b bs]; [reflexivity|].
  simpl. apply Qle_bool_iff in H. unfold inject_Z. now rewrite H.
Qed.

Lemma step3_go (b : Bracket) (bs : list Bracket) (rem tot : Q)
  (bd : list Reference.Entry) :
  0 < rem ->
  Reference.step3 (b :: bs) rem tot bd =
  Reference.step3 bs (rem - amount_in rem b) (tot + amount_in rem b * rate b)
    (bd ++ [ {| Reference.label := bracket_label (limit b);
                Reference.taxedAmount := amount_in rem b;
                Reference.taxForBracket := amount_in rem b * rate b |} ]).
Proof.
  intros H. simpl.
  destruct (Qle_bool rem (inject_Z 0)) eqn:E.
  - apply Qle_bool_iff in E. unfold inject_Z in E. lra.
  - unfold amount_in. destruct (limit b); reflexivity.
Qed.

Lemma amount_in_bounds (rem : Q) (b : Bracket) :
  0 < rem ->
  match limit b with Some l => 0 <= l | None => True end ->
  0 <= amount_in rem b /\ amount_in rem b <= rem.
Proof.
  unfold amount_in. destruct (limit b) as [l|]; intros Hr Hl; [|lra].
  destruct (Qle_bool rem l) eqn:E; [lra|].
  assert (~ rem <= l) by (rewrite <- Qle_bool_iff; congruence). lra.
Qed.

Lemma amount_in_mono (x y : Q) (b : Bracket) :
  x <= y ->
  amount_in x b <= amount_in y b /\
  amount_in y b - amount_in x b <= y - x.
Proof.
  unfold amount_in. destruct (limit b) as [l|]; intros Hxy; [|lra].
  destruct (Qle_bool x l) eqn:Ex; destruct (Qle_bool y l) eqn:Ey;
    try (apply Qle_bool_iff in Ex); try (apply Qle_bool_iff in Ey);
    try (assert (~ x <= l) by (rewrite <- Qle_bool_iff; congruence));
    try (assert (~ y <= l) by (rewrite <- Qle_bool_iff; congruence));
    lra.
Qed.

Lemma fraction_of (d r : Q) : 0 <= d -> in_unit r -> 0 <= d * r /\ d * r <= d.
Proof. intros Hd [H0 H1]. split; nra. Qed.

(** The tax charged on a non-negative remainder lies between nothing and
    the remainder itself. *)
Lemma step3_tax_bounds (bs : list Bracket) :
  nonneg_limits bs ->
  Forall (fun b => in_unit (rate b)) bs ->
  forall rem tot bd,
    0 <= rem ->
    tot <= fst (Reference.step3 bs rem tot bd) /\
    fst (Reference.step3 bs rem tot bd) <= tot + rem.
Proof.
  induction bs as [|b bs IH]; intros Hl Hr rem tot bd Hrem.
  - simpl. lra.
  - inversion Hl as [|? ? Hlb Hls]; inversion Hr as [|? ? Hrb Hrs]; subst.
    destruct (Qlt_le_dec 0 rem) as [Hpos|Hneg].
    + rewrite step3_go by exact Hpos.
      destruct (amount_in_bounds b Hpos Hlb) as [Ha0 Ha1].
      destruct (fraction_of Ha0 Hrb) as [Hf0 Hf1].
      match goal with
      | |- context [Reference.step3 bs ?r ?t ?d] =>
          destruct (IH Hls Hrs r t d) as [I0 I1]; [lra|]
      end.
      lra.
    + rewrite step3_stop by exact Hneg. simpl. lra.
Qed.

(** A larger remainder is charged more tax, but never more than the increase. *)
Lemma step3_tax_slope (bs : list Bracket) :
  nonneg_limits bs ->
  Forall (fun b => in_unit (rate b)) bs ->
  forall x y tx ty bdx bdy,
    x <= y ->
    fst (Reference.step3 bs y ty bdy) - ty -
    (fst (Reference.step3 bs x tx bdx) - tx) <= y - x.
Proof.
  induction bs as [|b bs IH]; intros Hl Hr x y tx ty bdx bdy Hxy.
  - simpl. lra.
  - destruct (Qlt_le_dec 0 x) as [Hx|Hx].
    + assert (Hy : 0 < y) by lra.
      rewrite (step3_go b bs tx bdx Hx), (step3_go b bs ty bdy Hy).
      inversion Hl as [|? ? Hlb Hls]; inversion Hr as [|? ? Hrb Hrs]; subst.
      destruct (amount_in_mono b Hxy) as [Hm0 Hm1].
      assert (Hd : 0 <= amount_in y b - amount_in x b) by lra.
      destruct (fraction_of Hd Hrb) as [Hf0 Hf1].
      match goal with
      | |- context [Reference.step3 bs ?ry ?ty' ?dy] =>
        match goal with
        | |- context [Reference.step3 bs (x - ?a) ?tx' ?dx] =>
            assert (I := IH Hls Hrs (x - a) ry tx' ty' dx dy)
        end
      end.
      lra.
    + rewrite (step3_stop (b :: bs) tx bdx Hx). cbn [fst].
      destruct (Qlt_le_dec 0 y) as [Hy|Hy].
      * destruct (@step3_tax_bounds (b :: bs) Hl Hr y ty bdy) as [_ B]; lra.
      * rewrite (step3_stop (b :: bs) ty bdy Hy). cbn [fst]. lra.
Qed.

(** The fields of the result, read off the reference recursion. *)
Lemma calculateTax_fields (g : Q) (rates : Rates) :
  let t := g - g * ssnitRate rates in
  let r := calculateTax g rates in
  grossIncome r = g /\
  ssnit r = g * ssnitRate rates /\
  taxableIncome r = t /\
  totalTax r = fst (Reference.step3 (brackets rates) t 0 []) /\
  breakdown r =
    map Reference.to_entry (snd (Reference.step3 (brackets rates) t 0 [])) /\
  netIncome r = t - totalTax r.
Proof.
  destruct (@calculateTax_reference ExactNumber g rates) as (Hg & Hs & Ht & Htt & Hn & Hb & _).
  unfold Reference.compute in *.
  exact_ops.
  destruct (Reference.step3 (brackets rates) (g - g * ssnitRate rates) 0 [])
    as [tt bd] eqn:E.
  simpl in *. repeat split; assumption.
Qed.

Lemma parts_sum_to_gross (g : Q) (rates : Rates) :
  let r := calculateTax g rates in
  netIncome r + ssnit r + totalTax r == g.
Proof.
  destruct (calculateTax_fields g rates) as (_ & Hs & _ & _ & _ & Hn).
  cbv zeta. rewrite Hn, Hs. ring.
Qed.


Lemma taxable_mono (g1 g2 s : Q) :
  g1 <= g2 -> in_unit s -> g1 - g1 * s <= g2 - g2 * s.
Proof. intros Hg [H0 H1]. nra. Qed.

Lemma netIncome_mono_any (rates : Rates) (g1 g2 : Q) :
  in_unit (ssnitRate rates) ->
  Forall (fun b => in_unit (rate b)) (brackets rates) ->
  nonneg_limits (brackets rates) ->
  g1 <= g2 ->
  netIncome (calculateTax g1 rates) <= netIncome (calculateTax g2 rates).
Proof.
  intros Hs Hr Hl Hg.
  destruct (calculateTax_fields g1 rates) as (_ & _ & _ & Ht1 & _ & Hn1).
  destruct (calculateTax_fields g2 rates) as (_ & _ & _ & Ht2 & _ & Hn2).
  rewrite Hn1, Hn2, Ht1, Ht2.
  assert (Ht := taxable_mono Hg Hs).
  assert (S := @step3_tax_slope (brackets rates) Hl Hr _ _ 0 0 [] [] Ht).
  lra.
Qed.

Lemma DEFAULT_valid : valid_RateTable DEFAULT_GHANA_TAX_RATES.
Proof.
  unfold valid_RateTable, in_unit. simpl. repeat split; try discriminate;
    try (repeat constructor; simpl; unfold Qle; simpl; lia).
Qed.

Lemma DEFAULT_nonneg_limits : nonneg_limits (brackets DEFAULT_GHANA_TAX_RATES).
Proof. repeat constructor; simpl; unfold Qle; simpl; lia. Qed.

Lemma total_width_nonneg (bs : list Bracket) :
  nonneg_limits bs -> 0 <= total_width bs.
Proof.
  induction 1 as [|b bs Hb _ IH]; simpl; [lra|].
  unfold width. destruct (limit b); lra.
Qed.

Lemma amount_in_full (rem : Q) (b : Bracket) :
  limit b <> None -> width b < rem -> amount_in rem b = width b.
Proof.
  unfold amount_in, width. destruct (limit b) as [l|]; [|congruence].
  intros _ H. destruct (Qle_bool rem l) eqn:E; [|reflexivity].
  apply Qle_bool_iff in E. lra.
Qed.

Lemma step3_exhaust (bs : list Bracket) :
  all_bounded bs ->
  nonneg_limits bs ->
  forall rem tot bd,
    total_width bs < rem ->
    fst (Reference.step3 bs rem tot bd) == tot + full_tax bs /\
    map Reference.to_entry (snd (Reference.step3 bs rem tot bd)) =
    map Reference.to_entry bd ++ map full_line bs.
Proof.
  induction bs as [|b bs IH]; intros Hb Hl rem tot bd Hrem.
  - simpl. split; [exact_ops; ring | now rewrite app_nil_r].
  - inversion Hb as [|? ? Hbb Hbs]; inversion Hl as [|? ? Hlb Hls]; subst.
    simpl in Hrem.
    assert (Hw := total_width_nonneg Hls).
    assert (H0 : 0 <= width b) by (unfold width; destruct (limit b); lra).
    rewrite step3_go by lra.
    rewrite (amount_in_full b Hbb) by lra.
    match goal with
    | |- context [Reference.step3 bs ?r ?t ?d] =>
        destruct (IH Hbs Hls r t d) as [I0 I1]; [lra|]
    end.
    split.
    + rewrite I0. simpl. exact_ops. ring.
    + rewrite I1, map_app, <- app_assoc. reflexivity.
Qed.

(** *** Non-positive income *)

Lemma bracket_loop_nonpos (t : Q) (rates : Rates) :
  t <= 0 ->
  bracket_loop t rates =
  {| loop_i := 0%nat; loop_remainingTaxable := t;
     loop_totalTax := 0; loop_breakdown := [] |}.
Proof.
  intros H. unfold bracket_loop. apply for_loop_break.
  simpl. now apply Qle_bool_iff.
Qed.

Lemma calculateTax_nonpos (g : Q) (rates : Rates) :
  g - g * ssnitRate rates <= 0 ->
  totalTax (calculateTax g rates) = 0 /\
  breakdown (calculateTax g rates) = [] /\
  netIncome (calculateTax g rates) == g - g * ssnitRate rates.
Proof.
  intros H. unfold calculateTax. cbn [totalTax breakdown netIncome].
  exact_ops.
  rewrite (bracket_loop_nonpos rates H). simpl. repeat split. exact_ops. ring.
Qed.


End ExactFacts.

(** * Properties of the specification *)

Section Refinement.
Context {N : JsNumber}.

(** C2: [calculateTax] computes what Steps 1 to 4 of the reference algorithm
    compute: the deduction, the taxable income, the total tax, the net income
    and the breakdown lines agree field by field with [Reference.compute],
    for every income and every table, and the [for] loop of the code has been
    left when the result is built. *)
Theorem calculateTax_implements_reference (g : num) (rates : TaxRates) :
  let r := calculateTax g rates in
  let r' := Reference.compute g rates in
  grossIncome r = g /\
  ssnit r = Reference.mandatoryDeduction r' /\
  taxableIncome r = Reference.taxableIncome r' /\
  totalTax r = Reference.totalTax r' /\
  netIncome r = Reference.netIncome r' /\
  breakdown r = map Reference.to_entry (Reference.breakdown r') /\
  loop_iteration rates (bracket_loop (taxableIncome r) rates) = None.
Proof.
  destruct (calculateTax_reference g rates) as (H1 & H2 & H3 & H4 & H5 & H6 & _).
  cbv zeta. repeat split; try assumption.
  apply bracket_loop_exits.
Qed.

End Refinement.

Section ExactClaims.
Local Open Scope Q_scope.




(** C4: zero income.  On a valid table [calculateTax 0] returns zero in every
    numeric field and an empty breakdown. *)
Theorem zero_income (rates : Rates) :
  valid_RateTable rates ->
  let r := calculateTax 0 rates in
  grossIncome r == 0 /\ ssnit r == 0 /\ taxableIncome r == 0 /\
  totalTax r == 0 /\ netIncome r == 0 /\ breakdown r = [].
Proof.
  intros _. cbv zeta.
  assert (H : 0 - 0 * ssnitRate rates <= 0) by lra.
  destruct (calculateTax_nonpos rates H) as (Ht & Hb & Hn).
  destruct (calculateTax_fields 0 rates) as (Hg & Hs & Hx & _).
  rewrite Hg, Hs, Hx, Ht, Hb, Hn. repeat split; ring.
Qed.

Lemma zero_income_witness :
  let r := calculateTax 0 DEFAULT_GHANA_TAX_RATES in
  grossIncome r == 0 /\ ssnit r == 0 /\ taxableIncome r == 0 /\
  totalTax r == 0 /\ netIncome r == 0 /\ breakdown r = [].
Proof. apply (@zero_income DEFAULT_GHANA_TAX_RATES). exact DEFAULT_valid. Defined.




(** C5, as stated, fails: with rates in [0,1] on a valid table whose first
    bracket has width -100, raising the gross income from 0 to 1 lowers the
    net income from 0 to -100. *)
Lemma monotonicity_fails_on_negative_width :
  valid_RateTable negative_width_table /\
  0 <= 0 /\ 0 <= 1 /\
  ~ netIncome (calculateTax 0 negative_width_table)
    <= netIncome (calculateTax 1 negative_width_table).
Proof.
  split; [|split; [|split]].
  - unfold valid_RateTable, in_unit. simpl.
    repeat split; try discriminate;
      repeat constructor; simpl; unfold Qle; simpl; lia.
  - unfold Qle; simpl; lia.
  - unfold Qle; simpl; lia.
  - vm_compute. intros H. apply H. reflexivity.
Qed.

(** C5 (amended): monotonicity over exact arithmetic.  On a valid table whose
    bounded brackets all have a non-negative width, and with exact
    arithmetic, a larger non-negative gross income never gives a smaller net
    income. *)
Theorem netIncome_monotone (rates : Rates) (g1 g2 : Q) :
  valid_RateTable rates ->
  nonneg_limits (brackets rates) ->
  0 <= g1 ->
  g1 <= g2 ->
  netIncome (calculateTax g1 rates) <= netIncome (calculateTax g2 rates).
Proof.
  intros (_ & _ & Hs & Hr) Hl _ Hg. now apply netIncome_mono_any.
Qed.

Lemma netIncome_monotone_witness :
  netIncome (calculateTax 5000 DEFAULT_GHANA_TAX_RATES)
  <= netIncome (calculateTax 6000 DEFAULT_GHANA_TAX_RATES).
Proof.
  apply (@netIncome_monotone DEFAULT_GHANA_TAX_RATES 5000 6000).
  - exact DEFAULT_valid.
  - exact DEFAULT_nonneg_limits.
  - unfold Qle; simpl; lia.
  - unfold Qle; simpl; lia.
Defined.

(** C10 (amended): a table without an unbounded bracket, over exact
    arithmetic.  When every bracket has a finite non-negative width and a
    non-negative rate, the taxable income exceeds the total width, and the
    arithmetic is exact, the loop runs through the whole table and stops:
    there is one breakdown line per bracket, for the full width of that
    bracket, the total tax is the sum of [limit * rate], and the excess of the
    taxable income over the total width stays untaxed in the net income. *)
Theorem bounded_table_excess_untaxed (g : Q) (rates : Rates) :
  all_bounded (brackets rates) ->
  nonneg_limits (brackets rates) ->
  Forall (fun b => 0 <= rate b) (brackets rates) ->
  total_width (brackets rates) < g - g * ssnitRate rates ->
  let r := calculateTax g rates in
  breakdown r = map full_line (brackets rates) /\
  totalTax r == full_tax (brackets rates) /\
  netIncome r ==
    (taxableIncome r - total_width (brackets rates)) +
    (total_width (brackets rates) - full_tax (brackets rates)) /\
  loop_i (bracket_loop (taxableIncome r) rates) = List.length (brackets rates) /\
  loop_iteration rates (bracket_loop (taxableIncome r) rates) = None.
Proof.
  intros Hb Hl _ Ht. cbv zeta.
  destruct (calculateTax_fields g rates) as (_ & _ & Hx & Htt & Hbd & Hn).
  destruct (@step3_exhaust (brackets rates) Hb Hl _ 0 [] Ht) as [E0 E1].
  rewrite <- Htt in E0. rewrite <- Hbd in E1. cbn [map app] in E1.
  assert (Hlen := bracket_loop_counts
                    (taxableIncome (@calculateTax ExactNumber g rates)) rates).
  change (loop_breakdown
            (bracket_loop (taxableIncome (@calculateTax ExactNumber g rates)) rates))
    with (breakdown (@calculateTax ExactNumber g rates)) in Hlen.
  repeat split.
  - exact E1.
  - rewrite E0. ring.
  - rewrite Hn, Hx, E0. ring.
  - rewrite Hlen, E1. apply length_map.
  - apply bracket_loop_exits.
Qed.

Lemma bounded_table_excess_untaxed_witness :
  let r := calculateTax 5000 two_bracket_table in
  breakdown r = map full_line (brackets two_bracket_table) /\
  totalTax r == full_tax (brackets two_bracket_table) /\
  netIncome r ==
    (taxableIncome r - total_width (brackets two_bracket_table)) +
    (total_width (brackets two_bracket_table) -
     full_tax (brackets two_bracket_table)) /\
  loop_i (bracket_loop (taxableIncome r) two_bracket_table) = 2%nat /\
  loop_iteration two_bracket_table
    (bracket_loop (taxableIncome r) two_bracket_table) = None.
Proof.
  apply (@bounded_table_excess_untaxed 5000 two_bracket_table).
  - repeat constructor; simpl; discriminate.
  - repeat constructor; simpl; unfold Qle; simpl; lia.
  - repeat constructor; simpl; unfold Qle; simpl; lia.
  - vm_compute. reflexivity.
Defined.


(** C3: the concrete scenario.  A gross income of 5000 on the default table
    gives a deduction of 275, a taxable income of 4725, the five breakdown
    lines 490 (tax 0), 110 (tax 5.5), 130 (tax 13), 3160 (tax 553) and 835
    (tax 208.75), a total tax of 780.25 and a net income of 3944.75; this
    holds over exact arithmetic and, bit for bit, over binary64. *)
Theorem concrete_scenario_5000 :
  (let r := @calculateTax ExactNumber 5000 DEFAULT_GHANA_TAX_RATES in
   ssnit r == 275 /\
   taxableIncome r == 4725 /\
   Forall2 (fun e x => amount e == fst x /\ tax e == snd x)
     (breakdown r) Scenario.scenario_lines /\
   totalTax r == 780.25 /\
   netIncome r == 3944.75) /\
  @calculateTax Binary64.Number (of_Z 5000) DEFAULT_GHANA_TAX_RATES
  = Scenario.binary64_result.
Proof.
  split.
  - cbv zeta. repeat split; try (vm_compute; reflexivity).
    vm_compute. repeat (constructor; [split; reflexivity|]). constructor.
  - vm_compute. reflexivity.
Qed.


(** Brackets are exhausted in table order: a taxable income of 200 fills
    the first two brackets and leaves 50 for the unbounded one. *)
Example bracket_exhaustion_order :
  let r := calculateTax 200 three_bracket_table in
  taxableIncome r == 200 /\
  Forall2 (fun e x => amount e == fst x /\ tax e == snd x)
    (breakdown r) [ (100, 0); (50, 5); (50, 10) ] /\
  totalTax r == 15.
Proof.
  cbv zeta. repeat split; try (vm_compute; reflexivity).
  vm_compute. repeat (constructor; [split; reflexivity|]). constructor.
Qed.

End ExactClaims.

Section ProviderFacts.
Context {N : JsNumber}.
Variable generateContent :
  string -> GenerateContentParameters -> Completion GenerateContentResponse.
Variable JSON_parse : string -> Completion JsValue.

Lemma default_has_no_source :
  get (rates_to_js DEFAULT_GHANA_TAX_RATES) "source" = Normal JsUndefined.
Proof. reflexivity. Qed.

Lemma try_block_fails (key : string) :
  service_fails generateContent JSON_parse key ->
  try_block generateContent JSON_parse key = Normal None \/
  exists e, try_block generateContent JSON_parse key = Throw e.
Proof.
  unfold service_fails, try_block.
  destruct (generateContent key request) as [response|e]; simpl;
    [|intros _; right; now exists e].
  destruct (JSON_parse (text_or_empty_object response)) as [data|e]; simpl;
    [|intros _; right; now exists e].
  destruct data as [| |b|x|s|items|props]; simpl; intros H;
    try (right; now exists TypeError); try (now left).
  destruct (truthy (lookup "brackets" props)); simpl; [|now left].
  rewrite H. now left.
Qed.

Lemma fetch_resolves (key : option string) :
  exists v, settled (fetchLatestTaxRates generateContent JSON_parse key)
            = Resolved v.
Proof.
  unfold fetchLatestTaxRates.
  destruct key as [k|]; [|eexists; reflexivity].
  destruct (String.eqb k ""); [eexists; reflexivity|].
  destruct (try_block generateContent JSON_parse k) as [[table|]|e];
    eexists; reflexivity.
Qed.

(** C7: fallback determinism.  With no credential configured (the variable
    is unset, or empty), [fetchLatestTaxRates] resolves to the hardcoded
    default table, whatever the service and the parser would do and without
    calling the service or logging, and that table has no [source]. *)
Theorem fallback_without_credential (key : option string) :
  key = None \/ key = Some ""%string ->
  let run := fetchLatestTaxRates generateContent JSON_parse key in
  settled run = Resolved (rates_to_js DEFAULT_GHANA_TAX_RATES) /\
  events run = [] /\
  source DEFAULT_GHANA_TAX_RATES = None /\
  get (rates_to_js DEFAULT_GHANA_TAX_RATES) "source" = Normal JsUndefined.
Proof.
  intros [-> | ->]; cbv zeta; repeat split.
Qed.

(** C8: no error reaches the caller.  The promise of [fetchLatestTaxRates]
    is resolved, never rejected, for every key and every behaviour of the
    service and of the parser; and when the client throws, the body does not
    parse, or the parsed body has no [brackets] array, it is resolved with
    the hardcoded default table. *)
Theorem fetch_never_propagates (key : string) :
  service_fails generateContent JSON_parse key ->
  let run := fetchLatestTaxRates generateContent JSON_parse (Some key) in
  settled run = Resolved (rates_to_js DEFAULT_GHANA_TAX_RATES) /\
  forall key', exists v,
    settled (fetchLatestTaxRates generateContent JSON_parse key') = Resolved v.
Proof.
  intros H. cbv zeta. split; [|exact fetch_resolves].
  unfold fetchLatestTaxRates.
  destruct (String.eqb key ""); [reflexivity|].
  destruct (try_block_fails key H) as [-> | [e ->]]; reflexivity.
Qed.

End ProviderFacts.

Lemma fallback_without_credential_witness :
  let run := @fetchLatestTaxRates ExactNumber offline_service no_parser None in
  settled run = Resolved (rates_to_js DEFAULT_GHANA_TAX_RATES) /\
  events run = [] /\
  source (@DEFAULT_GHANA_TAX_RATES ExactNumber) = None /\
  get (rates_to_js (@DEFAULT_GHANA_TAX_RATES ExactNumber)) "source"
  = Normal JsUndefined.
Proof.
  apply (@fallback_without_credential ExactNumber offline_service no_parser None).
  left; reflexivity.
Defined.

Lemma fetch_never_propagates_witness :
  let fallback := Resolved (rates_to_js (@DEFAULT_GHANA_TAX_RATES ExactNumber)) in
  settled (fetchLatestTaxRates offline_service sample_parser (Some "key"%string))
  = fallback /\
  settled (fetchLatestTaxRates (replying (Some "I cannot answer that"%string))
             sample_parser (Some "key"%string))
  = fallback /\
  settled (fetchLatestTaxRates (replying None) sample_parser (Some "key"%string))
  = fallback /\
  settled (fetchLatestTaxRates (replying (Some "null"%string)) sample_parser
             (Some "key"%string))
  = fallback.
Proof.
  cbv zeta. split; [|split; [|split]].
  - exact (proj1 (@fetch_never_propagates ExactNumber offline_service
                    sample_parser "key"%string I)).
  - exact (proj1 (@fetch_never_propagates ExactNumber
                    (replying (Some "I cannot answer that"%string))
                    sample_parser "key"%string I)).
  - exact (proj1 (@fetch_never_propagates ExactNumber (replying None)
                    sample_parser "key"%string eq_refl)).
  - exact (proj1 (@fetch_never_propagates ExactNumber
                    (replying (Some "null"%string)) sample_parser
                    "key"%string eq_refl)).
Defined.

(** The fallback is not all the model can do: a body with a [brackets] array
    is turned into a fresh table that carries the [source] tag and the
    defaults for the fields the body leaves out. *)
Example live_table_is_returned :
  fetchLatestTaxRates (replying (Some empty_brackets_body))
    (@sample_parser ExactNumber) (Some "key"%string)
  = {| settled :=
         Resolved (JsObject
           [ ("ssnitRate", JsNum (of_decimal 55 1000));
             ("year", JsString "2025");
             ("brackets", JsArray []);
             ("source", JsString "Gemini Live Search") ]%string);
       events := [GenerateContent "key" request] |}.
Proof. reflexivity. Qed.

(** ** Period normalisation *)

Section PeriodNormalisation.
Local Open Scope Q_scope.
Variable parseFloat : string -> option Q.

Lemma or_zero_exact (x : option Q) :
  @or_zero ExactNumber x == match x with Some v => v | None => 0 end.
Proof.
  destruct x as [v|]; simpl; [|reflexivity].
  change (inject_Z 0) with 0.
  destruct (Qle_bool 0 v) eqn:E0; destruct (Qle_bool v 0) eqn:E1; simpl;
    try reflexivity.
  apply Qle_bool_iff in E0, E1. lra.
Qed.


End PeriodNormalisation.

(** ** The engine over binary64 *)

Module Binary64Facts.
Import PrimFloat.

Example default_rates_are_the_literals :
  ssnitRate (@DEFAULT_GHANA_TAX_RATES Binary64.Number) = 0.055%float /\
  map (@rate Binary64.Number) (brackets DEFAULT_GHANA_TAX_RATES)
  = Scenario.default_rate_literals.
Proof. split; vm_compute; reflexivity. Qed.

Example zero_income_binary64 :
  let r := @calculateTax Binary64.Number 0%float DEFAULT_GHANA_TAX_RATES in
  (ssnit r, taxableIncome r, totalTax r, netIncome r) = (0, 0, 0, 0)%float /\
  breakdown r = [].
Proof. split; vm_compute; reflexivity. Qed.

(** [NaN <= 0] is false, so an income that is not a number is not stopped by
    the [break]: the engine does not validate its input. *)
Example nan_income_enters_the_loop :
  List.length (breakdown (@calculateTax Binary64.Number nan DEFAULT_GHANA_TAX_RATES))
  = 7%nat.
Proof. vm_compute. reflexivity. Qed.

End Binary64Facts.

(** * Further properties of the engine *)

(** ** The breakdown, for any arithmetic *)

Section LineFacts.
Context {N : JsNumber}.
Local Open Scope js_scope.

Lemma step3_lines (bs : list TaxBracket) (rem tot : num)
  (bd : list Reference.Entry) :
  map Reference.to_entry (snd (Reference.step3 bs rem tot bd))
  = map Reference.to_entry bd ++ bracket_lines bs rem /\
  fst (Reference.step3 bs rem tot bd)
  = fold_left (fun t e => t + tax e) (bracket_lines bs rem) tot.
Proof.
  revert rem tot bd; induction bs as [|b bs IH]; intros rem tot bd; simpl.
  - now rewrite app_nil_r.
  - destruct (rem <=? of_Z 0); simpl; [now rewrite app_nil_r|].
    match goal with
    | |- context [Reference.step3 bs ?r ?t ?d] =>
        destruct (IH r t d) as [I0 I1]
    end.
    rewrite I0, I1, map_app, <- app_assoc. split; reflexivity.
Qed.

Lemma calculateTax_lines (g : num) (rates : TaxRates) :
  let r := calculateTax g rates in
  breakdown r = bracket_lines (brackets rates) (taxableIncome r) /\
  totalTax r = fold_left (fun t e => t + tax e) (breakdown r) (of_Z 0).
Proof.
  destruct (calculateTax_reference g rates) as (_ & _ & Ht & Htt & _ & Hb & _).
  cbv zeta. unfold Reference.compute in *.
  match type of Hb with
  | context [Reference.step3 ?bs ?r ?t ?d] =>
      destruct (step3_lines bs r t d) as [L0 L1];
      destruct (Reference.step3 bs r t d) as [tt bd]
  end.
  simpl in *. rewrite Hb, Htt, L0, L1. split; reflexivity.
Qed.

Lemma bracket_lines_aligned (bs : list TaxBracket) (rem : num) :
  (List.length (bracket_lines bs rem) <= List.length bs)%nat /\
  Forall2 line_of (bracket_lines bs rem)
    (firstn (List.length (bracket_lines bs rem)) bs).
Proof.
  revert rem; induction bs as [|b bs IH]; intros rem; simpl.
  - split; [lia | constructor].
  - destruct (rem <=? of_Z 0); simpl; [split; [lia | constructor]|].
    match goal with
    | |- context [bracket_lines bs ?r] => destruct (IH r) as [I0 I1]
    end.
    split; [lia|]. constructor; [|exact I1]. split; reflexivity.
Qed.

Lemma rows_from_combine (table : TaxRates) (items : list BreakdownEntry)
  (idx : nat) :
  (idx + List.length items <= List.length (brackets table))%nat ->
  AppComponent.rows_from idx items table
  = Normal (map (fun p =>
                   {| AppComponent.row_bracket := bracket (fst p);
                      AppComponent.row_percent := rate (snd p) * of_Z 100;
                      AppComponent.row_amount := amount (fst p);
                      AppComponent.row_tax := tax (fst p) |})
              (combine items (skipn idx (brackets table)))).
Proof.
  revert idx; induction items as [|item items IH]; intros idx Hlen; simpl.
  - reflexivity.
  - simpl in Hlen.
    destruct (nth_error (brackets table) idx) as [b|] eqn:Hnth.
    2:{ apply nth_error_None in Hnth. lia. }
    rewrite (skipn_nth_error_cons _ _ Hnth), IH by lia. reflexivity.
Qed.

(** X1: the breakdown never has more lines than the table has brackets, and
    its i-th line belongs to the i-th bracket: it carries the label of that
    bracket and its tax is its amount times the rate of that bracket. *)
Theorem breakdown_aligned_with_brackets (g : num) (rates : TaxRates) :
  let r := calculateTax g rates in
  (List.length (breakdown r) <= List.length (brackets rates))%nat /\
  Forall2 line_of (breakdown r)
    (firstn (List.length (breakdown r)) (brackets rates)).
Proof.
  cbv zeta. destruct (calculateTax_lines g rates) as [-> _].
  apply bracket_lines_aligned.
Qed.

(** X2: the total tax is the running sum, from zero and in breakdown order,
    of the taxes of the breakdown lines. *)
Theorem totalTax_sums_the_breakdown (g : num) (rates : TaxRates) :
  let r := calculateTax g rates in
  totalTax r = fold_left (fun t e => t + tax e) (breakdown r) (of_Z 0).
Proof. exact (proj2 (calculateTax_lines g rates)). Qed.

(** X3: the breakdown is empty exactly when the table has no bracket or the
    taxable income is not above zero. *)
Theorem breakdown_empty_iff (g : num) (rates : TaxRates) :
  let r := calculateTax g rates in
  breakdown r = [] <->
  brackets rates = [] \/ (taxableIncome r <=? of_Z 0) = true.
Proof.
  cbv zeta. destruct (calculateTax_lines g rates) as [-> _].
  generalize (taxableIncome (calculateTax g rates)); intros t.
  destruct (brackets rates) as [|b bs]; simpl.
  - split; auto.
  - destruct (t <=? of_Z 0).
    + split; auto.
    + split; [discriminate|]. intros H. destruct H as [H|H]; discriminate.
Qed.

(** X4: rendering the breakdown list never reads a bracket that is not
    there: every line of [results.breakdown] finds [rates.brackets[idx]],
    and the rows pair the lines with the brackets in table order. *)
Theorem breakdown_rows_never_throw (g : num) (rates : TaxRates) :
  let r := calculateTax g rates in
  AppComponent.breakdown_rows r rates
  = Normal (map (fun p =>
                   {| AppComponent.row_bracket := bracket (fst p);
                      AppComponent.row_percent := rate (snd p) * of_Z 100;
                      AppComponent.row_amount := amount (fst p);
                      AppComponent.row_tax := tax (fst p) |})
              (combine (breakdown r) (brackets rates))).
Proof.
  cbv zeta. unfold AppComponent.breakdown_rows.
  rewrite rows_from_combine; [reflexivity|].
  destruct (calculateTax_lines g rates) as [-> _].
  destruct (bracket_lines_aligned (brackets rates)
              (taxableIncome (calculateTax g rates))) as [H _].
  simpl. exact H.
Qed.

End LineFacts.

(** ** The engine over exact arithmetic *)

Section ExactLineFacts.
Local Open Scope Q_scope.

Lemma bracket_lines_stop (bs : list Bracket) (rem : Q) :
  rem <= 0 -> bracket_lines bs rem = [].
Proof.
  intros H. destruct bs as [|b bs]; [reflexivity|].
  simpl. apply Qle_bool_iff in H. change (inject_Z 0) with 0. now rewrite H.
Qed.

Lemma bracket_lines_go (b : Bracket) (bs : list Bracket) (rem : Q) :
  0 < rem ->
  bracket_lines (b :: bs) rem =
  {| bracket := bracket_label (limit b);
     amount := amount_in rem b;
     tax := amount_in rem b * rate b |}
  :: bracket_lines bs (rem - amount_in rem b).
Proof.
  intros H. simpl. change (inject_Z 0) with 0.
  destruct (Qle_bool rem 0) eqn:E.
  - apply Qle_bool_iff in E. lra.
  - unfold amount_in. destruct (limit b); reflexivity.
Qed.

Lemma amount_in_le (rem : Q) (b : Bracket) : amount_in rem b <= rem.
Proof.
  unfold amount_in. destruct (limit b) as [l|]; [|lra].
  destruct (Qle_bool rem l) eqn:E; [lra|].
  assert (~ rem <= l) by (rewrite <- Qle_bool_iff; congruence). lra.
Qed.

Lemma amount_in_le_limit (rem l : Q) (b : Bracket) :
  limit b = Some l -> amount_in rem b <= l.
Proof.
  unfold amount_in. intros ->.
  destruct (Qle_bool rem l) eqn:E; [|lra]. now apply Qle_bool_iff.
Qed.

Lemma sum_amounts_app (l1 l2 : list (@BreakdownEntry ExactNumber)) :
  sum_amounts (l1 ++ l2) == sum_amounts l1 + sum_amounts l2.
Proof.
  induction l1 as [|e l1 IH]; simpl; [ring|].
  exact_ops. rewrite IH. ring.
Qed.

Lemma last_unbounded_tail (b b' : Bracket) (bs : list Bracket) :
  last_unbounded (b :: b' :: bs) -> last_unbounded (b' :: bs).
Proof.
  unfold last_unbounded. simpl.
  destruct (rev bs ++ [b']) as [|x r] eqn:E; [|auto].
  destruct (rev bs); discriminate.
Qed.

(** Every pass of the loop moves the amount of its line from what remains to
    the breakdown. *)
Lemma for_loop_attribution (rates : Rates) (fuel : nat)
  (s : @LoopState ExactNumber) :
  loop_remainingTaxable (for_loop fuel rates s)
  + sum_amounts (loop_breakdown (for_loop fuel rates s))
  == loop_remainingTaxable s + sum_amounts (loop_breakdown s).
Proof.
  revert s; induction fuel as [|fuel IH]; intros s; simpl; [reflexivity|].
  destruct (loop_iteration rates s) as [s'|] eqn:Hit; [|reflexivity].
  rewrite IH. unfold loop_iteration in Hit.
  destruct (nth_error (brackets rates) (loop_i s)) as [b|]; [|discriminate].
  destruct (@leb ExactNumber (loop_remainingTaxable s) (of_Z 0));
    [discriminate|].
  inversion Hit; subst; clear Hit. simpl.
  rewrite sum_amounts_app. simpl. exact_ops. ring.
Qed.

Lemma lines_attribute_all (bs : list Bracket) :
  last_unbounded bs ->
  forall rem, 0 <= rem -> sum_amounts (bracket_lines bs rem) == rem.
Proof.
  induction bs as [|b bs IH]; intros Hlast rem Hrem; [destruct Hlast|].
  destruct (Qlt_le_dec 0 rem) as [Hpos|Hneg].
  - rewrite bracket_lines_go by exact Hpos. simpl. exact_ops.
    destruct bs as [|b' bs].
    + unfold last_unbounded in Hlast. simpl in Hlast.
      unfold amount_in. rewrite Hlast. simpl. ring.
    + rewrite (IH (@last_unbounded_tail b b' bs Hlast)).
      * ring.
      * assert (H := amount_in_le rem b). lra.
  - rewrite bracket_lines_stop by exact Hneg. simpl. lra.
Qed.

Lemma lines_within (bs : list Bracket) :
  nonneg_limits bs ->
  Forall (fun b => in_unit (rate b)) bs ->
  forall rem,
    Forall2 line_within (bracket_lines bs rem)
      (firstn (List.length (bracket_lines bs rem)) bs).
Proof.
  induction bs as [|b bs IH]; intros Hl Hr rem; [constructor|].
  inversion Hl as [|? ? Hlb Hls]; inversion Hr as [|? ? Hrb Hrs]; subst.
  destruct (Qlt_le_dec 0 rem) as [Hpos|Hneg].
  - rewrite bracket_lines_go by exact Hpos. simpl.
    constructor; [|now apply IH].
    destruct (amount_in_bounds b Hpos Hlb) as [Ha0 Ha1].
    destruct (fraction_of Ha0 Hrb) as [Hf0 Hf1].
    unfold line_within. simpl. repeat split; try assumption.
    destruct (limit b) as [l|] eqn:El; [|exact I].
    now apply amount_in_le_limit.
  - rewrite bracket_lines_stop by exact Hneg. constructor.
Qed.

End ExactLineFacts.

Section ExactEngineProperties.
Local Open Scope Q_scope.

Lemma step3_tax_mono (bs : list Bracket) :
  nonneg_limits bs ->
  Forall (fun b => in_unit (rate b)) bs ->
  forall x y tx ty bdx bdy,
    x <= y ->
    fst (Reference.step3 bs x tx bdx) - tx
    <= fst (Reference.step3 bs y ty bdy) - ty.
Proof.
  induction bs as [|b bs IH]; intros Hl Hr x y tx ty bdx bdy Hxy.
  - simpl. lra.
  - destruct (Qlt_le_dec 0 x) as [Hx|Hx].
    + assert (Hy : 0 < y) by lra.
      rewrite (step3_go b bs tx bdx Hx), (step3_go b bs ty bdy Hy).
      inversion Hl as [|? ? Hlb Hls]; inversion Hr as [|? ? Hrb Hrs]; subst.
      destruct (amount_in_mono b Hxy) as [Hm0 Hm1].
      assert (Hd : 0 <= amount_in y b - amount_in x b) by lra.
      destruct (fraction_of Hd Hrb) as [Hf0 Hf1].
      match goal with
      | |- context [Reference.step3 bs (y - ?ay) ?ty' ?dy] =>
        match goal with
        | |- context [Reference.step3 bs (x - ?ax) ?tx' ?dx] =>
            assert (I := IH Hls Hrs (x - ax) (y - ay) tx' ty' dx dy)
        end
      end.
      lra.
    + rewrite (step3_stop (b :: bs) tx bdx Hx). cbn [fst].
      destruct (Qlt_le_dec 0 y) as [Hy|Hy].
      * destruct (@step3_tax_bounds (b :: bs) Hl Hr y ty bdy) as [B _]; lra.
      * rewrite (step3_stop (b :: bs) ty bdy Hy). cbn [fst]. lra.
Qed.

Lemma step3_tax_cap (bs : list Bracket) (top : Q) :
  0 <= top ->
  nonneg_limits bs ->
  Forall (fun b => 0 <= rate b /\ rate b <= top) bs ->
  forall rem tot bd,
    0 <= rem ->
    fst (Reference.step3 bs rem tot bd) - tot <= top * rem.
Proof.
  intros Htop.
  induction bs as [|b bs IH]; intros Hl Hr rem tot bd Hrem.
  - simpl. nra.
  - inversion Hl as [|? ? Hlb Hls]; inversion Hr as [|? ? [Hr0 Hr1] Hrs]; subst.
    destruct (Qlt_le_dec 0 rem) as [Hpos|Hneg].
    + rewrite step3_go by exact Hpos.
      destruct (amount_in_bounds b Hpos Hlb) as [Ha0 Ha1].
      match goal with
      | |- context [Reference.step3 bs ?r ?t ?d] =>
          assert (I := IH Hls Hrs r t d)
      end.
      assert (amount_in rem b * rate b <= top * amount_in rem b) by nra.
      lra.
    + rewrite step3_stop by exact Hneg. cbn [fst]. nra.
Qed.

Lemma step3_after_unbounded (pre post : list Bracket) (unb : Bracket) :
  limit unb = None ->
  forall rem tot bd,
    Reference.step3 (pre ++ unb :: post) rem tot bd
    = Reference.step3 (pre ++ [unb]) rem tot bd.
Proof.
  intros Hunb. induction pre as [|b pre IH]; intros rem tot bd.
  - simpl app. destruct (Qlt_le_dec 0 rem) as [Hpos|Hneg].
    + rewrite !step3_go by exact Hpos.
      assert (Ha : amount_in rem unb = rem) by (unfold amount_in; now rewrite Hunb).
      rewrite Ha. rewrite step3_stop by lra. reflexivity.
    + now rewrite !step3_stop by exact Hneg.
  - simpl app. destruct (Qlt_le_dec 0 rem) as [Hpos|Hneg].
    + rewrite !step3_go by exact Hpos. apply IH.
    + now rewrite !step3_stop by exact Hneg.
Qed.

(** X5: the loop keeps the taxable income whole: at its end, what is still
    left to tax plus the amounts of the breakdown lines is the taxable
    income, on every table and for every income. *)
Theorem remaining_plus_breakdown_is_taxable (g : Q) (rates : Rates) :
  let r := calculateTax g rates in
  loop_remainingTaxable (bracket_loop (taxableIncome r) rates)
  + sum_amounts (breakdown r)
  == taxableIncome r.
Proof.
  cbv zeta. unfold calculateTax at 2. cbn [breakdown].
  unfold bracket_loop. rewrite for_loop_attribution. simpl. exact_ops. ring.
Qed.

(** X6: over exact arithmetic, when the last bracket of the table is
    unbounded and the taxable income is not negative, the breakdown accounts
    for all of it: the amounts of its lines add up to the taxable income. *)
Theorem breakdown_accounts_for_taxable (g : Q) (rates : Rates) :
  last_unbounded (brackets rates) ->
  0 <= g - g * ssnitRate rates ->
  let r := calculateTax g rates in
  sum_amounts (breakdown r) == taxableIncome r.
Proof.
  intros Hlast Ht. cbv zeta.
  destruct (@calculateTax_lines ExactNumber g rates) as [-> _].
  destruct (calculateTax_fields g rates) as (_ & _ & -> & _).
  now apply lines_attribute_all.
Qed.

Lemma breakdown_accounts_for_taxable_witness :
  let r := calculateTax 5000 DEFAULT_GHANA_TAX_RATES in
  sum_amounts (breakdown r) == taxableIncome r.
Proof.
  apply (@breakdown_accounts_for_taxable 5000 DEFAULT_GHANA_TAX_RATES).
  - reflexivity.
  - vm_compute. discriminate.
Defined.

(** X7: over exact arithmetic, on a valid table with non-negative widths and
    for a non-negative gross income, every figure of the result is in range: the deduction and
    the taxable income lie between 0 and the gross income, the total tax
    between 0 and the taxable income, the net income between 0 and the gross
    income. *)
Theorem result_within_bounds (g : Q) (rates : Rates) :
  valid_RateTable rates ->
  nonneg_limits (brackets rates) ->
  0 <= g ->
  let r := calculateTax g rates in
  0 <= ssnit r /\ ssnit r <= g /\
  0 <= taxableIncome r /\ taxableIncome r <= g /\
  0 <= totalTax r /\ totalTax r <= taxableIncome r /\
  0 <= netIncome r /\ netIncome r <= g.
Proof.
  intros (_ & _ & Hs & Hr) Hl Hg. cbv zeta.
  destruct (calculateTax_fields g rates) as (_ & -> & -> & Htt & _ & ->).
  destruct (fraction_of Hg Hs) as [S0 S1].
  assert (Ht : 0 <= g - g * ssnitRate rates) by lra.
  destruct (@step3_tax_bounds (brackets rates) Hl Hr _ 0 [] Ht) as [B0 B1].
  rewrite <- Htt in B0, B1. repeat split; lra.
Qed.

Lemma result_within_bounds_witness :
  let r := calculateTax 5000 DEFAULT_GHANA_TAX_RATES in
  0 <= ssnit r /\ ssnit r <= 5000 /\
  0 <= taxableIncome r /\ taxableIncome r <= 5000 /\
  0 <= totalTax r /\ totalTax r <= taxableIncome r /\
  0 <= netIncome r /\ netIncome r <= 5000.
Proof.
  apply (@result_within_bounds 5000 DEFAULT_GHANA_TAX_RATES).
  - exact DEFAULT_valid.
  - exact DEFAULT_nonneg_limits.
  - vm_compute. discriminate.
Defined.

End ExactEngineProperties.

Section ExactEngineProperties2.
Local Open Scope Q_scope.

(** X8: over exact arithmetic, with non-negative widths and rates that are
    fractions, each breakdown line stays within its bracket: its amount is not negative and not above
    the width of the bracket, and its tax is between 0 and its amount. *)
Theorem breakdown_lines_within_brackets (g : Q) (rates : Rates) :
  nonneg_limits (brackets rates) ->
  Forall (fun b => in_unit (rate b)) (brackets rates) ->
  let r := calculateTax g rates in
  Forall2 line_within (breakdown r)
    (firstn (List.length (breakdown r)) (brackets rates)).
Proof.
  intros Hl Hr. cbv zeta.
  destruct (@calculateTax_lines ExactNumber g rates) as [-> _].
  now apply lines_within.
Qed.

Lemma breakdown_lines_within_brackets_witness :
  let r := calculateTax 5000 DEFAULT_GHANA_TAX_RATES in
  Forall2 line_within (breakdown r)
    (firstn (List.length (breakdown r)) (brackets DEFAULT_GHANA_TAX_RATES)).
Proof.
  apply (@breakdown_lines_within_brackets 5000 DEFAULT_GHANA_TAX_RATES).
  - exact DEFAULT_nonneg_limits.
  - exact (proj2 (proj2 (proj2 DEFAULT_valid))).
Defined.

(** X9: over exact arithmetic the tax is progressive in the weak sense: on a
    valid table with non-negative widths, a larger gross income never pays
    less total tax. *)
Theorem totalTax_monotone (rates : Rates) (g1 g2 : Q) :
  valid_RateTable rates ->
  nonneg_limits (brackets rates) ->
  g1 <= g2 ->
  totalTax (calculateTax g1 rates) <= totalTax (calculateTax g2 rates).
Proof.
  intros (_ & _ & Hs & Hr) Hl Hg.
  destruct (calculateTax_fields g1 rates) as (_ & _ & _ & -> & _).
  destruct (calculateTax_fields g2 rates) as (_ & _ & _ & -> & _).
  assert (Ht := taxable_mono Hg Hs).
  assert (M := @step3_tax_mono (brackets rates) Hl Hr _ _ 0 0 [] [] Ht).
  lra.
Qed.

Lemma totalTax_monotone_witness :
  totalTax (calculateTax 5000 DEFAULT_GHANA_TAX_RATES)
  <= totalTax (calculateTax 6000 DEFAULT_GHANA_TAX_RATES).
Proof.
  apply (@totalTax_monotone DEFAULT_GHANA_TAX_RATES 5000 6000).
  - exact DEFAULT_valid.
  - exact DEFAULT_nonneg_limits.
  - vm_compute. discriminate.
Defined.

(** X10: over exact arithmetic the total tax never exceeds the highest rate
    of the table applied to the whole taxable income: if no bracket rate is above [top], widths
    and rates are non-negative and so is the taxable income, then
    [totalTax <= top * taxableIncome]. *)
Theorem totalTax_capped_by_top_rate (g top : Q) (rates : Rates) :
  0 <= top ->
  nonneg_limits (brackets rates) ->
  Forall (fun b => 0 <= rate b /\ rate b <= top) (brackets rates) ->
  0 <= g - g * ssnitRate rates ->
  let r := calculateTax g rates in
  totalTax r <= top * taxableIncome r.
Proof.
  intros Htop Hl Hr Ht. cbv zeta.
  destruct (calculateTax_fields g rates) as (_ & _ & -> & -> & _).
  assert (C := @step3_tax_cap (brackets rates) top Htop Hl Hr _ 0 [] Ht).
  lra.
Qed.

Lemma totalTax_capped_by_top_rate_witness :
  let r := calculateTax 5000 DEFAULT_GHANA_TAX_RATES in
  totalTax r <= 0.35 * taxableIncome r.
Proof.
  apply (@totalTax_capped_by_top_rate 5000 0.35 DEFAULT_GHANA_TAX_RATES).
  - vm_compute. discriminate.
  - exact DEFAULT_nonneg_limits.
  - repeat constructor; vm_compute; discriminate.
  - vm_compute. discriminate.
Defined.

(** X11: over exact arithmetic, where an unbounded bracket always uses up
    what is left, brackets listed after an unbounded bracket are never
    reached: the total tax, the net income and the breakdown are those of
    the table cut right after its first unbounded bracket. *)
Theorem brackets_after_unbounded_are_dead
  (g s : Q) (y : string) (src : option string)
  (pre post : list Bracket) (unb : Bracket) :
  limit unb = None ->
  let r := calculateTax g (@Build_TaxRates ExactNumber s (pre ++ unb :: post) y src) in
  let r' := calculateTax g (@Build_TaxRates ExactNumber s (pre ++ [unb]) y src) in
  totalTax r = totalTax r' /\
  netIncome r = netIncome r' /\
  breakdown r = breakdown r'.
Proof.
  intros Hunb. cbv zeta.
  destruct (calculateTax_fields g (@Build_TaxRates ExactNumber s (pre ++ unb :: post) y src))
    as (_ & _ & _ & T1 & B1 & N1).
  destruct (calculateTax_fields g (@Build_TaxRates ExactNumber s (pre ++ [unb]) y src))
    as (_ & _ & _ & T2 & B2 & N2).
  cbn [brackets ssnitRate] in *.
  rewrite (step3_after_unbounded pre post unb Hunb) in T1, B1.
  rewrite N1, N2, T1, T2, B1, B2. repeat split.
Qed.

Lemma brackets_after_unbounded_are_dead_witness :
  let unb := @Build_TaxBracket ExactNumber None 0.2 in
  let late := @Build_TaxBracket ExactNumber (Some 100) 0.9 in
  let r := calculateTax 200 (@Build_TaxRates ExactNumber 0 ([] ++ unb :: [late]) "2025" None) in
  let r' := calculateTax 200 (@Build_TaxRates ExactNumber 0 ([] ++ [unb]) "2025" None) in
  totalTax r = totalTax r' /\
  netIncome r = netIncome r' /\
  breakdown r = breakdown r'.
Proof.
  cbv zeta.
  apply (@brackets_after_unbounded_are_dead 200 0 "2025" None []
           [@Build_TaxBracket ExactNumber (Some 100) 0.9] (@Build_TaxBracket ExactNumber None 0.2)).
  reflexivity.
Defined.

(** X12: an income that fits in the first bracket, over exact arithmetic.
    When the first bracket is bounded and the taxable income is positive and
    not above its width,
    the breakdown is the single line of that bracket for the whole taxable
    income, and the tax is the taxable income at the rate of that bracket. *)
Theorem income_within_first_bracket
  (g l : Q) (rates : Rates) (b : Bracket) (rest : list Bracket) :
  brackets rates = b :: rest ->
  limit b = Some l ->
  0 < g - g * ssnitRate rates ->
  g - g * ssnitRate rates <= l ->
  let r := calculateTax g rates in
  breakdown r = [ {| bracket := Next l;
                     amount := taxableIncome r;
                     tax := taxableIncome r * rate b |} ] /\
  totalTax r == taxableIncome r * rate b /\
  netIncome r == taxableIncome r * (1 - rate b).
Proof.
  intros Hbs Hlim Hpos Hle. cbv zeta.
  destruct (@calculateTax_lines ExactNumber g rates) as [HB HT].
  destruct (calculateTax_fields g rates) as (_ & _ & Ht & _ & _ & Hn).
  assert (Ha : amount_in (g - g * ssnitRate rates) b = g - g * ssnitRate rates).
  { unfold amount_in. rewrite Hlim.
    apply Qle_bool_iff in Hle. now rewrite Hle. }
  assert (HB' : breakdown (calculateTax g rates)
                = [ {| bracket := Next l;
                       amount := g - g * ssnitRate rates;
                       tax := (g - g * ssnitRate rates) * rate b |} ]).
  { rewrite HB, Ht, Hbs, bracket_lines_go by exact Hpos.
    rewrite Ha, bracket_lines_stop by lra. now rewrite Hlim. }
  assert (HT' : totalTax (calculateTax g rates)
                == (g - g * ssnitRate rates) * rate b).
  { rewrite HT, HB'. simpl. exact_ops. ring. }
  rewrite Hn, Ht, HB', HT'. repeat split; ring.
Qed.

Lemma income_within_first_bracket_witness :
  let r := calculateTax 500 DEFAULT_GHANA_TAX_RATES in
  breakdown r = [ {| bracket := Next 490;
                     amount := taxableIncome r;
                     tax := taxableIncome r * 0 |} ] /\
  totalTax r == taxableIncome r * 0 /\
  netIncome r == taxableIncome r * (1 - 0).
Proof.
  apply (@income_within_first_bracket 500 490 DEFAULT_GHANA_TAX_RATES
           (@Build_TaxBracket ExactNumber (Some 490) 0)
           (List.tl (brackets DEFAULT_GHANA_TAX_RATES))).
  - reflexivity.
  - reflexivity.
  - vm_compute. reflexivity.
  - vm_compute. discriminate.
Defined.

End ExactEngineProperties2.

(** * Further properties of the provider *)

Section ProviderProperties.
Context {N : JsNumber}.
Variable generateContent :
  string -> GenerateContentParameters -> Completion GenerateContentResponse.
Variable JSON_parse : string -> Completion JsValue.
Local Open Scope string_scope.

Lemma try_block_live (key : string) (response : GenerateContentResponse)
  (props : list (string * JsValue)) (items : list JsValue) :
  generateContent key request = Normal response ->
  JSON_parse (text_or_empty_object response) = Normal (JsObject props) ->
  lookup "brackets" props = JsArray items ->
  try_block generateContent JSON_parse key
  = Normal (Some (live_table props items)).
Proof.
  intros Hg Hp Hb. unfold try_block. rewrite Hg. simpl. rewrite Hp. simpl.
  rewrite Hb. reflexivity.
Qed.

(** What the [try] block can produce at all. *)
Lemma try_block_result (key : string) (table : JsValue) :
  try_block generateContent JSON_parse key = Normal (Some table) ->
  exists props items,
    lookup "brackets" props = JsArray items /\
    table = live_table props items.
Proof.
  unfold try_block.
  destruct (generateContent key request) as [response|e]; simpl;
    [|discriminate].
  destruct (JSON_parse (text_or_empty_object response)) as [data|e]; simpl;
    [|discriminate].
  destruct data as [| |b|x|s|its|props]; simpl; try discriminate.
  destruct (lookup "brackets" props) as [| |b|x|s|items|ps] eqn:Hb; simpl;
    try discriminate;
    try (match goal with |- context [if ?c then _ else _] => destruct c end;
         simpl; discriminate).
  intros H. inversion H. exists props, items. split; [exact Hb | reflexivity].
Qed.

Lemma nonempty_key (key : string) : key <> "" -> String.eqb key "" = false.
Proof.
  intros H. destruct (String.eqb key "") eqn:E; [|reflexivity].
  apply String.eqb_eq in E. contradiction.
Qed.

(** X13: the live path.  With a key, a response whose body parses to an
    object with a [brackets] array makes the promise resolve to a fresh
    table: the array verbatim, the reported [ssnitRate] and [year] unless
    they are falsy (then 0.055 and "2025"), and the source tag; the service
    is called once and nothing is logged. *)
Theorem live_response_gives_tagged_table
  (key : string) (response : GenerateContentResponse)
  (props : list (string * JsValue)) (items : list JsValue) :
  key <> "" ->
  generateContent key request = Normal response ->
  JSON_parse (text_or_empty_object response) = Normal (JsObject props) ->
  lookup "brackets" props = JsArray items ->
  fetchLatestTaxRates generateContent JSON_parse (Some key)
  = {| settled := Resolved (live_table props items);
       events := [GenerateContent key request] |}.
Proof.
  intros Hk Hg Hp Hb. unfold fetchLatestTaxRates.
  rewrite (nonempty_key Hk), (try_block_live Hg Hp Hb). reflexivity.
Qed.

Lemma resolved_table_shape (key : option string) :
  exists table,
    settled (fetchLatestTaxRates generateContent JSON_parse key) = Resolved table /\
    (exists items, get table "brackets" = Normal (JsArray items)) /\
    (table = rates_to_js DEFAULT_GHANA_TAX_RATES \/
     get table "source" = Normal (JsString "Gemini Live Search")).
Proof.
  assert (D : exists items, get (rates_to_js DEFAULT_GHANA_TAX_RATES) "brackets" = Normal (JsArray items))
    by (eexists; reflexivity).
  unfold fetchLatestTaxRates.
  destruct key as [k|]; [|exists (rates_to_js DEFAULT_GHANA_TAX_RATES); auto].
  destruct (String.eqb k ""); [exists (rates_to_js DEFAULT_GHANA_TAX_RATES); auto|].
  destruct (try_block generateContent JSON_parse k) as [[table|]|e] eqn:E.
  - destruct (@try_block_result k table E) as (props & items & Hb & ->).
    eexists; split; [reflexivity|]. split; [|right; reflexivity].
    exists items. reflexivity.
  - exists (rates_to_js DEFAULT_GHANA_TAX_RATES); auto.
  - exists (rates_to_js DEFAULT_GHANA_TAX_RATES); auto.
Qed.

(** X14: whatever the service and the parser do, the promise resolves to a
    table with a [brackets] array, and that table is either the hardcoded
    default or carries the source tag "Gemini Live Search". *)
Theorem resolved_table_is_default_or_tagged (key : option string) :
  exists table,
    settled (fetchLatestTaxRates generateContent JSON_parse key) = Resolved table /\
    (exists items, get table "brackets" = Normal (JsArray items)) /\
    (table = rates_to_js DEFAULT_GHANA_TAX_RATES \/
     get table "source" = Normal (JsString "Gemini Live Search")).
Proof. exact (resolved_table_shape key). Qed.

(** X15: with a key, the service is called exactly once, first, and an error
    is logged exactly when something threw inside the [try]: the client, the
    parser, or the read of [brackets] on a body that parsed to [null]. *)
Theorem events_of_a_fetch (key : string) :
  key <> "" ->
  events (fetchLatestTaxRates generateContent JSON_parse (Some key))
  = GenerateContent key request ::
    match generateContent key request with
    | Throw e => [ConsoleError "Error fetching live tax rates:" e]
    | Normal response =>
        match JSON_parse (text_or_empty_object response) with
        | Throw e => [ConsoleError "Error fetching live tax rates:" e]
        | Normal JsNull | Normal JsUndefined =>
            [ConsoleError "Error fetching live tax rates:" TypeError]
        | Normal _ => []
        end
    end.
Proof.
  intros Hk. unfold fetchLatestTaxRates, try_block. rewrite (nonempty_key Hk).
  destruct (generateContent key request) as [response|e]; simpl;
    [|reflexivity].
  destruct (JSON_parse (text_or_empty_object response)) as [data|e]; simpl;
    [|reflexivity].
  destruct data as [| |b|x|s|its|props]; simpl; try reflexivity.
  destruct (lookup "brackets" props) as [| |b|x|s|items|ps]; simpl;
    try reflexivity;
    match goal with |- context [if ?c then _ else _] => destruct c end;
    reflexivity.
Qed.

(** X16: a response without a body.  When [response.text] is [undefined] or
    empty the text "{}" is parsed instead; if that parses to the empty
    object, the promise resolves to the default table after the one service
    call and nothing is logged. *)
Theorem empty_body_falls_back_silently
  (key : string) (response : GenerateContentResponse) :
  key <> "" ->
  generateContent key request = Normal response ->
  text response = None \/ text response = Some "" ->
  JSON_parse "{}" = Normal (JsObject []) ->
  fetchLatestTaxRates generateContent JSON_parse (Some key)
  = {| settled := Resolved (rates_to_js DEFAULT_GHANA_TAX_RATES);
       events := [GenerateContent key request] |}.
Proof.
  intros Hk Hg Ht Hp. unfold fetchLatestTaxRates, try_block.
  rewrite (nonempty_key Hk), Hg. simpl.
  assert (Hbody : text_or_empty_object response = "{}")
    by (unfold text_or_empty_object; destruct Ht as [-> | ->]; reflexivity).
  rewrite Hbody, Hp. reflexivity.
Qed.

End ProviderProperties.

Lemma live_response_gives_tagged_table_witness :
  fetchLatestTaxRates (replying (Some empty_brackets_body))
    (@sample_parser ExactNumber) (Some "key"%string)
  = {| settled :=
         Resolved (JsObject
           [ ("ssnitRate", JsNum (of_decimal 55 1000));
             ("year", JsString "2025");
             ("brackets", JsArray []);
             ("source", JsString "Gemini Live Search") ]%string);
       events := [GenerateContent "key" request] |}.
Proof.
  apply (@live_response_gives_tagged_table ExactNumber
           (replying (Some empty_brackets_body)) sample_parser "key"%string
           {| text := Some empty_brackets_body |}
           [ ("brackets"%string, JsArray []) ] []).
  - discriminate.
  - reflexivity.
  - reflexivity.
  - reflexivity.
Defined.

Lemma events_of_a_fetch_witness :
  events (fetchLatestTaxRates (replying (Some "null"%string))
            (@sample_parser ExactNumber) (Some "key"%string))
  = [ GenerateContent "key" request;
      ConsoleError "Error fetching live tax rates:" TypeError ].
Proof.
  apply (@events_of_a_fetch ExactNumber (replying (Some "null"%string))
           sample_parser "key"%string).
  discriminate.
Defined.

Lemma empty_body_falls_back_silently_witness :
  fetchLatestTaxRates (replying None) (@sample_parser ExactNumber)
    (Some "key"%string)
  = {| settled := Resolved (rates_to_js DEFAULT_GHANA_TAX_RATES);
       events := [GenerateContent "key" request] |}.
Proof.
  apply (@empty_body_falls_back_silently ExactNumber (replying None)
           sample_parser "key"%string {| text := None |}).
  - discriminate.
  - reflexivity.
  - left; reflexivity.
  - reflexivity.
Defined.

(** * Properties of the component *)

Section ComponentProperties.
Context {N : JsNumber}.
Variable generateContent :
  string -> GenerateContentParameters -> Completion GenerateContentResponse.
Variable JSON_parse : string -> Completion JsValue.
Local Open Scope string_scope.

(** X18: after a refresh the live-data badge is rendered exactly when the
    table in use is not the hardcoded default. *)
Theorem badge_marks_live_tables
  (key : option string) (s : AppComponent.State) :
  let s' := AppComponent.handleRefreshRates generateContent JSON_parse key s in
  exists shown,
    AppComponent.shows_live_badge s' = Normal shown /\
    (shown = false <->
     AppComponent.rates s' = rates_to_js DEFAULT_GHANA_TAX_RATES).
Proof.
  cbv zeta. unfold AppComponent.handleRefreshRates, AppComponent.refresh_body.
  destruct (resolved_table_shape generateContent JSON_parse key)
    as (table & Hs & _ & [-> | Htag]).
  - rewrite Hs. exists false. split; [reflexivity|]. split; reflexivity.
  - rewrite Hs. exists true. unfold AppComponent.shows_live_badge. simpl.
    rewrite Htag. split; [reflexivity|]. split; [discriminate|].
    intros ->. discriminate.
Qed.

End ComponentProperties.

Section AnnualFigures.
Local Open Scope Q_scope.
Variable parseFloat : string -> option Q.

(** X19: in annual mode the figures of the annual summary give the entered
    income back: twelve times the monthly net income, plus twelve times the
    monthly tax, plus twelve times the monthly SSNIT deduction is the parsed
    annual income (0 when the text does not parse). *)
Theorem annual_summary_adds_up (income : string) (rates : Rates) :
  let r := results parseFloat income true rates in
  AppComponent.annualTakeHome r + AppComponent.annualTotalTax r + ssnit r * 12
  == parsed_income parseFloat income.
Proof.
  cbv zeta. unfold results, parsed_income,
    AppComponent.annualTakeHome, AppComponent.annualTotalTax.
  assert (H := or_zero_exact (parseFloat income)).
  set (numIncome := @or_zero ExactNumber (parseFloat income)) in *.
  exact_ops. change (@of_Z ExactNumber 12) with 12 in *.
  assert (C := parts_sum_to_gross (numIncome / 12) rates). cbv zeta in C.
  set (r := @calculateTax ExactNumber (numIncome / 12) rates) in *.
  transitivity ((netIncome r + ssnit r + totalTax r) * 12); [ring|].
  rewrite C.
  destruct (parseFloat income) as [v|]; rewrite H; field.
Qed.

End AnnualFigures.

Section ReportedRate.
Local Open Scope Q_scope.
Variable generateContent :
  string -> GenerateContentParameters -> Completion GenerateContentResponse.
Variable JSON_parse : string -> Completion (@JsValue ExactNumber).

Lemma truthy_number (x : Q) :
  @truthy ExactNumber (JsNum x) = negb (Qeq_bool x 0).
Proof.
  simpl. change (inject_Z 0) with 0.
  destruct (Qeq_bool x 0) eqn:E.
  - apply Qeq_bool_iff in E.
    assert (H0 : Qle_bool 0 x = true) by (apply Qle_bool_iff; lra).
    assert (H1 : Qle_bool x 0 = true) by (apply Qle_bool_iff; lra).
    now rewrite H0, H1.
  - destruct (Qle_bool 0 x) eqn:H0; destruct (Qle_bool x 0) eqn:H1;
      try reflexivity.
    apply Qle_bool_iff in H0, H1.
    assert (Hx : x == 0) by lra.
    apply Qeq_bool_iff in Hx. congruence.
Qed.

(** X20: the reported SSNIT rate is not validated, and a zero is lost.  On
    the live path a numeric [ssnitRate] is taken verbatim, whatever its sign
    or size, except that a rate equal to zero is replaced by 0.055. *)
Theorem reported_ssnitRate_is_kept_unless_zero
  (key : string) (response : GenerateContentResponse)
  (props : list (string * JsValue)) (items : list JsValue) (x : Q) :
  key <> ""%string ->
  generateContent key request = Normal response ->
  JSON_parse (text_or_empty_object response) = Normal (JsObject props) ->
  lookup "brackets" props = JsArray items ->
  lookup "ssnitRate" props = JsNum x ->
  exists table,
    settled (fetchLatestTaxRates generateContent JSON_parse (Some key))
    = Resolved table /\
    get table "ssnitRate"
    = Normal (@JsNum ExactNumber (if Qeq_bool x 0 then 0.055 else x)).
Proof.
  intros Hk Hg Hp Hb Hs. unfold fetchLatestTaxRates.
  rewrite (nonempty_key Hk), (try_block_live _ _ _ Hg Hp Hb).
  eexists; split; [reflexivity|].
  unfold live_table. cbn [get lookup String.eqb]. simpl.
  rewrite Hs. unfold js_or. rewrite truthy_number.
  destruct (Qeq_bool x 0); reflexivity.
Qed.

End ReportedRate.

Lemma reported_ssnitRate_is_kept_unless_zero_witness :
  exists table,
    settled (fetchLatestTaxRates (replying (Some "body"%string))
               zero_rate_parser (Some "key"%string))
    = Resolved table /\
    get table "ssnitRate" = Normal (@JsNum ExactNumber 0.055%Q).
Proof.
  apply (@reported_ssnitRate_is_kept_unless_zero
           (replying (Some "body"%string)) zero_rate_parser "key"%string
           {| text := Some "body"%string |}
           [ ("ssnitRate"%string, @JsNum ExactNumber 0%Q);
             ("brackets"%string, JsArray []) ]
           [] 0%Q).
  - discriminate.
  - reflexivity.
  - reflexivity.
  - reflexivity.
  - reflexivity.
Defined.

(** * Where binary64 departs from exact arithmetic *)

Section Binary64Departures.
Local Open Scope Q_scope.


Lemma steep_table_valid : valid_RateTable (@steep_table ExactNumber).
Proof.
  unfold valid_RateTable, in_unit. simpl.
  repeat split; try discriminate;
    repeat constructor; simpl; unfold Qle; simpl; lia.
Qed.


(** C5, as stated, fails twice.  Over exact arithmetic a bracket of negative
    width breaks it: on a valid table whose first bracket has width -100,
    raising the gross income from 0 to 1 lowers the net income from 0 to
    -100.  Over binary64 rounding breaks it even when every width is
    non-negative: on a valid table, between two adjacent doubles just above
    5000, the net income falls. *)
Lemma monotonicity_fails_as_stated :
  (valid_RateTable negative_width_table /\
   0 <= 0 /\ 0 <= 1 /\
   ~ netIncome (calculateTax 0 negative_width_table)
     <= netIncome (calculateTax 1 negative_width_table)) /\
  (valid_RateTable (@steep_table ExactNumber) /\
   nonneg_limits (brackets (@steep_table ExactNumber)) /\
   let g1 := Binary64Inputs.just_above_5000 in
   let g2 := Binary64Inputs.next_above_5000 in
   PrimFloat.leb (@of_Z Binary64.Number 0) g1 = true /\
   PrimFloat.leb g1 g2 = true /\
   PrimFloat.ltb
     (netIncome (@calculateTax Binary64.Number g2 steep_table))
     (netIncome (@calculateTax Binary64.Number g1 steep_table))
   = true).
Proof.
  split.
  - split; [|split; [|split]].
    + unfold valid_RateTable, in_unit. simpl.
      repeat split; try discriminate;
        repeat constructor; simpl; unfold Qle; simpl; lia.
    + unfold Qle; simpl; lia.
    + unfold Qle; simpl; lia.
    + vm_compute. intros H. apply H. reflexivity.
  - split; [exact steep_table_valid|]. split.
    + repeat constructor; simpl; unfold Qle; simpl; lia.
    + cbv zeta. repeat split; vm_compute; reflexivity.
Qed.


(** C10, as stated, fails on doubles.  The table has three bounded brackets
    of non-negative width and rate, and the taxable income 2^53 + 2 exceeds
    their total width 2^53 + 1.25; but [2^53 + 2 - 1] rounds to [2^53], the
    second bracket takes all of it, and the third bracket gets no line. *)
Lemma bounded_table_misses_a_bracket_in_binary64 :
  all_bounded (brackets (@wide_bounded_table ExactNumber)) /\
  nonneg_limits (brackets (@wide_bounded_table ExactNumber)) /\
  Forall (fun b => 0 <= rate b) (brackets (@wide_bounded_table ExactNumber)) /\
  total_width (brackets (@wide_bounded_table ExactNumber))
  < 9007199254740994
    - 9007199254740994 * ssnitRate (@wide_bounded_table ExactNumber) /\
  let r := @calculateTax Binary64.Number Binary64Inputs.beyond_2_53
             wide_bounded_table in
  taxableIncome r = Binary64Inputs.beyond_2_53 /\
  List.length (brackets (@wide_bounded_table Binary64.Number)) = 3%nat /\
  List.length (breakdown r) = 2%nat.
Proof.
  split; [repeat constructor; simpl; discriminate|].
  split; [repeat constructor; simpl; unfold Qle; simpl; lia|].
  split; [repeat constructor; simpl; unfold Qle; simpl; lia|].
  split; [vm_compute; reflexivity|].
  cbv zeta. repeat split; vm_compute; reflexivity.
Qed.

(** The exact bounds on the result do not survive rounding: with two thin
    brackets at rate 1 the total tax on 5000 comes out above the taxable
    income and the net income below zero. *)
Example bounds_fail_in_binary64 :
  let r := @calculateTax Binary64.Number (of_Z 5000) thin_brackets_table in
  PrimFloat.ltb (taxableIncome r) (totalTax r) = true /\
  PrimFloat.ltb (netIncome r) (@of_Z Binary64.Number 0) = true.
Proof. cbv zeta. split; vm_compute; reflexivity. Qed.

(** An income that is not a number, or not finite, is never used up: the
    bracket after an unbounded one is reached. *)
Example nan_reaches_past_an_unbounded_bracket :
  List.length
    (breakdown (@calculateTax Binary64.Number PrimFloat.nan unbounded_first_table))
  = 2%nat /\
  List.length
    (breakdown (@calculateTax Binary64.Number PrimFloat.infinity
                  unbounded_first_table))
  = 2%nat.
Proof. split; vm_compute; reflexivity. Qed.

(** [t - t * rate] and [t * (1 - rate)] are different doubles at t = 7 and
    rate 0.055. *)
Example first_bracket_net_is_rounded :
  let r := @calculateTax Binary64.Number (of_Z 7) ten_wide_table in
  let rate1 := @of_decimal Binary64.Number 55 1000 in
  List.length (breakdown r) = 1%nat /\
  PrimFloat.eqb (netIncome r)
    (PrimFloat.mul (taxableIncome r)
       (PrimFloat.sub (@of_Z Binary64.Number 1) rate1))
  = false.
Proof. cbv zeta. split; vm_compute; reflexivity. Qed.

(** The amounts of the breakdown are rounded one by one: 2^-53 and 1 for a
    taxable income of 1 + 2^-52, and their sum is 1. *)
Example amounts_sum_is_rounded :
  let r := @calculateTax Binary64.Number Binary64Literals.just_above_one
             Binary64Literals.tiny_first_bracket_table in
  PrimFloat.eqb (taxableIncome r) Binary64Literals.just_above_one = true /\
  List.length (breakdown r) = 2%nat /\
  PrimFloat.ltb
    (fold_left (fun acc e => PrimFloat.add acc (@amount Binary64.Number e))
       (breakdown r) (@of_Z Binary64.Number 0))
    (taxableIncome r)
  = true.
Proof. cbv zeta. repeat split; vm_compute; reflexivity. Qed.

(** The total tax can fall between two adjacent incomes. *)
Example totalTax_falls_in_binary64 :
  PrimFloat.ltb
    (totalTax (@calculateTax Binary64.Number Binary64Literals.income_after
                 Binary64Literals.odd_deduction_table))
    (totalTax (@calculateTax Binary64.Number Binary64Literals.income_before
                 Binary64Literals.odd_deduction_table))
  = true.
Proof. vm_compute. reflexivity. Qed.

(** An income that is not a number gives amounts and taxes that are not
    numbers. *)
Example nan_income_gives_nan_lines :
  forallb (fun e => PrimFloat.is_nan (@amount Binary64.Number e)
                    && PrimFloat.is_nan (@tax Binary64.Number e))
    (breakdown (@calculateTax Binary64.Number PrimFloat.nan
                  DEFAULT_GHANA_TAX_RATES))
  = true.
Proof. vm_compute. reflexivity. Qed.

End Binary64Departures.
